(** * cypress-graphql-mock: the mock pipeline of [src/index.ts]

    A shallow embedding of the override merger, the mock-table resolver,
    the operation root resolver, the once-only global registrations, the
    session handle and the fetch wrapper, with the properties the
    specification states about them; then [getAlias], [schemaAsSDL], the
    commands [mockGraphql] and [mockGraphqlOps] and the earlier version
    of the module, with further properties of the code.

    Modelling conventions.
    - A JavaScript value is a term of [value].  Numbers are the integer
      valued ones (no NaN, no fractions); they only occur as literals that
      are copied around and as the delay.
    - An object used as a table is the list of its own enumerable
      properties in insertion order; its keys are names, not array
      indices (which JavaScript would list first).  [prop_get] reads an
      own property.  Where the module reads a table under a name that
      comes from a request, [getRootValue], the read goes on to the
      members the table inherits from [Object.prototype] ([table_get]);
      the read of [.constructor] in the error check goes on to the
      constructor of the nearest prototype.
    - A function value is a host function, whose behaviour on an
      argument is given by the environment [call_host], of this realm
      ([VFun]) or of another one ([VForeignFun]), or the closure
      [() => m] that [resolveMocks] builds.
    - What the module delegates to its collaborators (the original fetch,
      [JSON.parse], the schema builders, the GraphQL execution, promises
      and timers) appears as data in the result: a term such as
      [addMocksToSchema schema mocks resolvers] records the call and
      stands for what the call returns when it returns; that a
      collaborator throws instead is not part of the model, unless a
      definition says so. *)

From stdpp Require Import gmap strings list.
From Stdlib Require Import ZArith String.

#[local] Set Warnings "-register-all".

Local Open Scope string_scope.
Local Open Scope Z_scope.
Local Open Scope list_scope.

(** ** Values *)

(** A function is known by its [name] property and its identity. *)
Record fn_ref := FnRef { fn_name : string; fn_id : nat }.

#[global] Instance fn_ref_eq_dec : EqDecision fn_ref.
Proof. solve_decision. Defined.

Inductive value :=
| VUndefined
| VNull
| VBool (b : bool)
| VNum (n : Z)
| VStr (s : string)
| VArr (items : list value)
| VObj (protos : list fn_ref) (props : list (string * value))
| VFun (f : fn_ref)
| VConstFn (m : value)
| VForeignFun (f : fn_ref).

(** [VObj protos props]: [props] are the own enumerable properties and
    [protos] the constructors along the prototype chain, nearest first.
    [VConstFn m] is the arrow function [() => m].  [VForeignFun f] is a
    function made in another realm (another window or frame): it is
    callable and of type [function], but no instance of the [Function]
    of this realm. *)

Definition obj := list (string * value).

(** The constructors of the host that the model names. *)
Definition Object_fn := FnRef "Object" 0.
Definition Function_fn := FnRef "Function" 1.
Definition Array_fn := FnRef "Array" 2.
Definition String_fn := FnRef "String" 3.
Definition Number_fn := FnRef "Number" 4.
Definition Boolean_fn := FnRef "Boolean" 5.
Definition Error_fn := FnRef "Error" 6.
Definition TypeError_fn := FnRef "TypeError" 7.
Definition SyntaxError_fn := FnRef "SyntaxError" 8.
(** The class [GraphQLError] that [index.ts] imports from "graphql". *)
Definition GraphQLError := FnRef "GraphQLError" 9.

(** An object literal [{ ... }]. *)
Definition plain (props : obj) : value := VObj [Object_fn] props.

Definition error_object (ctor : fn_ref) (message : string) : value :=
  VObj [ctor; Error_fn; Object_fn] [("message", VStr message)].

Definition typeof (v : value) : string :=
  match v with
  | VUndefined => "undefined"
  | VNull => "object"
  | VBool _ => "boolean"
  | VNum _ => "number"
  | VStr _ => "string"
  | VArr _ => "object"
  | VObj _ _ => "object"
  | VFun _ => "function"
  | VConstFn _ => "function"
  | VForeignFun _ => "function"
  end.

Definition Array_isArray (v : value) : bool :=
  match v with VArr _ => true | _ => false end.

(** ToBoolean. *)
Definition truthy (v : value) : bool :=
  match v with
  | VUndefined | VNull => false
  | VBool b => b
  | VNum n => negb (n =? 0)
  | VStr s => negb (String.eqb s "")
  | VArr _ | VObj _ _ | VFun _ | VConstFn _ | VForeignFun _ => true
  end.

(** [m instanceof Function]: the functions of this realm. *)
Definition instanceof_Function (v : value) : bool :=
  match v with VFun _ | VConstFn _ => true | _ => false end.

(** ** Objects as tables *)

(** The own property [k], if there is one. *)
Fixpoint get_own (k : string) (o : obj) : option value :=
  match o with
  | [] => None
  | (k', v) :: o' => if decide (k = k') then Some v else get_own k o'
  end.

(** [o[k]]. *)
Definition prop_get (o : obj) (k : string) : value :=
  default VUndefined (get_own k o).

(** [o[k] = v]: an existing property keeps its place. *)
Fixpoint prop_set (k : string) (v : value) (o : obj) : obj :=
  match o with
  | [] => [(k, v)]
  | (k', v') :: o' =>
      if decide (k = k') then (k, v) :: o' else (k', v') :: prop_set k v o'
  end.

(** [Object.keys(o)], for keys that are not array indices: the own
    keys in insertion order. *)
Fixpoint Object_keys (o : obj) : list string :=
  match o with
  | [] => []
  | (k, _) :: o' => k :: filter (fun k' => k' ≠ k) (Object_keys o')
  end.

(** Copying the own properties of [source] onto [target], as a spread
    element [...source] does inside an object literal. *)
Definition copy_props (target source : obj) : obj :=
  fold_left (fun acc k => prop_set k (prop_get source k) acc)
            (Object_keys source) target.

(** [{ ...a, ...b }] for two tables. *)
Definition spread2 (a b : obj) : obj := copy_props (copy_props [] a) b.

(** The properties a spread element copies out of a value that passed
    [isObject]: those of an object, none for [null]. *)
Definition spreadable (v : value) : obj :=
  match v with VObj _ props => props | _ => [] end.

(** The table read as a finite map. *)
Definition to_map (o : obj) : gmap string value := list_to_map o.

(** ** [objectMap], [isObject], [mergeMocks], [resolveMocks] *)

Definition objectMap (object : obj) (mapFn : value -> string -> value) : obj :=
  fold_left (fun result key => prop_set key (mapFn (prop_get object key) key) result)
            (Object_keys object) [].

Definition isObject (what : value) : bool :=
  bool_decide (typeof what = "object") && negb (Array_isArray what).

Definition mergeMocks (currentMocks mocks : obj) : obj :=
  spread2 currentMocks
    (objectMap mocks (fun value key =>
       let currentValue := prop_get currentMocks key in
       if isObject currentValue && isObject value
       then plain (spread2 (spreadable currentValue) (spreadable value))
       else value)).

Definition asFunction (m : value) : value :=
  if instanceof_Function m then m else VConstFn m.

Definition resolveMocks (mocks : obj) : obj :=
  objectMap mocks (fun m _ => asFunction m).

(** ** The once-only global registrations *)

(** [commonMocks] and [commonOptions]; [None] is the initial [null]. *)
Record globals := Globals {
  commonMocks : option obj;
  commonOptions : option obj;
}.

Definition initial_globals : globals := Globals None None.

(** What a registration does: it returns its argument, or throws
    [new Error(message)]. *)
Inductive registration :=
| Returned (table : obj)
| SetupError (message : string).

(** A table is an object, hence truthy: [!commonMocks] holds exactly
    while the slot is still [null]. *)
Definition setBaseGraphqlMocks (mocks : obj) (g : globals) : registration * globals :=
  match commonMocks g with
  | None => (Returned mocks, Globals (Some mocks) (commonOptions g))
  | Some _ =>
      (SetupError "setBaseGraphqlMocks may only be called once, already called.", g)
  end.

Definition setBaseOperationOptions (options : obj) (g : globals) : registration * globals :=
  match commonOptions g with
  | None => (Returned options, Globals (commonMocks g) (Some options))
  | Some _ =>
      (SetupError "setBaseOperationOptions may only be called once, already called.", g)
  end.

(** Running a sequence of registrations, collecting what each one did. *)
Fixpoint run_all (step : obj -> globals -> registration * globals)
    (args : list obj) (g : globals) : list registration * globals :=
  match args with
  | [] => ([], g)
  | a :: rest =>
      let '(r, g1) := step a g in
      let '(rs, g2) := run_all step rest g1 in
      (r :: rs, g2)
  end.

(** ** The session and [setOperations] *)

(** The schema that [makeExecutableSchema] returns for these type
    definitions, when it returns one. *)
Inductive GraphQLSchema := makeExecutableSchema (typeDefs : list string).

(** The variables the closures of [mockGraphql] share. *)
Record session := Session {
  endpoint : string;
  executableSchema : GraphQLSchema;
  currentDelay : Z;
  currentOps : obj;
  currentMocks : obj;
  currentResolvers : obj;
}.

Record SetOperationsOpts := {
  opt_name : option string;
  opt_endpoint : option string;
  opt_operations : option obj;
  opt_mocks : option obj;
  opt_resolvers : option obj;
  opt_delay : option Z;
}.

(** [options.delay || 0]. *)
Definition delay_or_zero (d : option Z) : Z :=
  match d with
  | Some n => if truthy (VNum n) then n else 0
  | None => 0
  end.

Definition setOperations (options : SetOperationsOpts) (s : session) : session :=
  let delay' := delay_or_zero (opt_delay options) in
  let ops' := spread2 (currentOps s) (default [] (opt_operations options)) in
  let resolvers' :=
    match opt_resolvers options with
    | Some r => mergeMocks (currentResolvers s) r
    | None => currentResolvers s
    end in
  let mocks' :=
    match opt_mocks options with
    | Some m => mergeMocks (currentMocks s) m
    | None => currentMocks s
    end in
  Session (endpoint s) (executableSchema s) delay' ops' mocks' resolvers'.

(** ** The error check of the fetch wrapper *)

Definition TypeError_value : value := VObj [TypeError_fn; Error_fn; Object_fn] [].

(** [v instanceof GraphQLError]. *)
Definition instanceof_GraphQLError (v : value) : bool :=
  match v with
  | VObj protos _ => bool_decide (GraphQLError ∈ protos)
  | _ => false
  end.

(** [v.constructor]; [None] when the read throws a [TypeError]. *)
Definition constructor_of (v : value) : option value :=
  match v with
  | VUndefined | VNull => None
  | VBool _ => Some (VFun Boolean_fn)
  | VNum _ => Some (VFun Number_fn)
  | VStr _ => Some (VFun String_fn)
  | VArr _ => Some (VFun Array_fn)
  | VFun _ | VConstFn _ => Some (VFun Function_fn)
  | VForeignFun _ => Some (VForeignFun Function_fn)
  | VObj protos props =>
      match get_own "constructor" props with
      | Some c => Some c
      | None => Some (match protos with c :: _ => VFun c | [] => VUndefined end)
      end
  end.

(** [c.name]; [None] when the read throws a [TypeError]. *)
Definition name_of (c : value) : option value :=
  match c with
  | VUndefined | VNull => None
  | VFun f | VForeignFun f => Some (VStr (fn_name f))
  | VConstFn _ => Some (VStr "")
  | VObj _ props => Some (prop_get props "name")
  | VBool _ | VNum _ | VStr _ | VArr _ => Some VUndefined
  end.

Definition is_fn (v : value) (f : fn_ref) : bool :=
  match v with VFun g => bool_decide (g = f) | _ => false end.

Definition is_str (v : value) (s : string) : bool :=
  match v with VStr t => bool_decide (t = s) | _ => false end.

(** [rootValue instanceof GraphQLError ||
     rootValue.constructor === GraphQLError ||
     rootValue.constructor.name === "GraphQLError"],
    [None] when evaluating it throws a [TypeError]. *)
Definition isGraphQLErrorLike (rootValue : value) : option bool :=
  if instanceof_GraphQLError rootValue then Some true
  else
    c ← constructor_of rootValue;
    if is_fn c GraphQLError then Some true
    else
      c' ← constructor_of rootValue;
      n ← name_of c';
      Some (is_str n "GraphQLError").

(** ** Requests and what [fetch] returns *)

Inductive RequestInfo :=
| Url (url : string)
| RequestObject (url : string).

Record RequestInit := { method : option string; body : string }.

Record GQLRequestPayload := {
  operationName : option string;
  query : string;
  variables : value;
}.

(** The schema that [addMocksToSchema] returns for this schema, these
    mocks and these resolvers, when it returns one. *)
Inductive MockedSchema :=
  addMocksToSchema (schema : GraphQLSchema) (mocks resolvers : obj).

Record ExecutionArgs := {
  arg_schema : MockedSchema;
  arg_source : string;
  arg_variableValues : value;
  arg_operationName : option string;
  arg_rootValue : value;
}.

(** The head of a promise chain and its [.then] callbacks. *)
Inductive promise_head :=
| Promise_resolve
| graphql (args : ExecutionArgs).

Inductive callback :=
| wait (timeout : Z)
| respond_json (body : value)
| respond_json_data.

(** [respond_json body] is [() => new Response(JSON.stringify(body))]
    and [respond_json_data] is [data => new Response(JSON.stringify(data))]. *)

(** [Promise head thens] is the promise the wrapper returns once the
    calls recorded in [head] have returned. *)

Inductive fetch_result :=
| originalFetch (input : RequestInfo) (init : option RequestInit)
| Promise (head : promise_head) (thens : list callback)
| Thrown (e : value).

(** [s.indexOf(pat)]. *)
Fixpoint indexOf_from (i : Z) (s pat : string) : Z :=
  if String.prefix pat s then i
  else match s with
       | EmptyString => -1
       | String _ s' => indexOf_from (i + 1) s' pat
       end.

Definition indexOf (s pat : string) : Z := indexOf_from 0 s pat.

(** [pat] occurs in [s]. *)
Definition contains (s pat : string) : Prop :=
  ∃ pre post, s = pre +:+ pat +:+ post.

(** ** What a table inherits

    The tables of a session are made by object literals, so a read
    [operations[name]] that finds no own property goes on to
    [Object.prototype]: to its constructor, to its ten methods and to
    the accessor [__proto__]. *)

Definition Object_prototype_methods : list string :=
  ["__defineGetter__"; "__defineSetter__"; "hasOwnProperty";
   "__lookupGetter__"; "__lookupSetter__"; "isPrototypeOf";
   "propertyIsEnumerable"; "toString"; "valueOf"; "toLocaleString"].

(** [Object.prototype] itself: no enumerable property of its own, and
    [Object] as its [constructor]. *)
Definition Object_prototype : value := VObj [Object_fn] [].

Definition inherited_member (k : string) : option value :=
  if decide (k = "constructor") then Some (VFun Object_fn)
  else if decide (k = "__proto__") then Some Object_prototype
  else if decide (k ∈ Object_prototype_methods) then Some (VFun (FnRef k 20))
  else None.

(** [o[k]] through the prototype chain. *)
Definition table_get (o : obj) (k : string) : value :=
  match get_own k o with
  | Some v => v
  | None => default VUndefined (inherited_member k)
  end.

(** A function's result: a returned value or a thrown one. *)
Inductive completion :=
| Normal (v : value)
| Throw (e : value).

Section Host.

(** The behaviour of the host's functions on one argument, and the
    decoding of a request body into the envelope by [JSON.parse] and the
    destructuring that follows (on the right, what decoding throws). *)
Context (call_host : fn_ref -> value -> completion).
Context (JSON_parse : string -> GQLRequestPayload + value).

(** [f(arg)]. *)
Definition call (f arg : value) : completion :=
  match f with
  | VFun r | VForeignFun r => call_host r arg
  | VConstFn m => Normal m
  | _ => Throw TypeError_value
  end.

(** ** [getRootValue] *)

Definition getRootValue (operations : obj) (operationName : option string)
    (variables : value) : value :=
  match operationName with
  | None => plain []
  | Some name =>
      if negb (truthy (VStr name)) || negb (truthy (table_get operations name))
      then plain []
      else
        let op := table_get operations name in
        if bool_decide (typeof op = "function") then
          match call op variables with
          | Normal v => v
          | Throw e => e
          end
        else op
  end.

(** ** The fetch wrapper *)

Definition fetch (g : globals) (s : session)
    (input : RequestInfo) (init : option RequestInit) : fetch_result :=
  match input with
  | RequestObject _ => originalFetch input init
  | Url url =>
      match init with
      | Some i =>
          if bool_decide (indexOf url (endpoint s) ≠ -1)
             && bool_decide (method i = Some "POST")
          then
            match JSON_parse (body i) with
            | inr e => Thrown e
            | inl payload =>
                let rootValue :=
                  getRootValue (currentOps s) (operationName payload)
                               (variables payload) in
                match isGraphQLErrorLike rootValue with
                | None => Thrown TypeError_value
                | Some true =>
                    Promise Promise_resolve
                      [wait (currentDelay s);
                       respond_json (plain [("data", plain []);
                                            ("errors", VArr [rootValue])])]
                | Some false =>
                    let mocks :=
                      resolveMocks (spread2 (default [] (commonMocks g))
                                            (currentMocks s)) in
                    let schemaWithMocks :=
                      addMocksToSchema (executableSchema s) mocks
                                       (currentResolvers s) in
                    Promise
                      (graphql {| arg_schema := schemaWithMocks;
                                  arg_source := query payload;
                                  arg_variableValues := variables payload;
                                  arg_operationName := operationName payload;
                                  arg_rootValue := rootValue |})
                      [wait (currentDelay s); respond_json_data]
                end
            end
          else originalFetch input init
      | None => originalFetch input init
      end
  end.

End Host.

(** The requests the specification says are routed into the mock
    pipeline: a plain URL string that contains the endpoint, sent with
    the method POST. *)
Definition routed (endpoint : string) (input : RequestInfo)
    (init : option RequestInit) : Prop :=
  ∃ url i, input = Url url ∧ init = Some i
           ∧ contains url endpoint ∧ method i = Some "POST".

(** ** A small test bench

    A host with four handlers, a parser that reads the request body as
    the operation name, and a session that uses them. *)

Definition a_graphql_error : value := VObj [GraphQLError; Error_fn; Object_fn] [].

Definition bench_host (f : fn_ref) (arg : value) : completion :=
  match fn_id f with
  | 100%nat => Throw a_graphql_error
  | 101%nat => Normal VUndefined
  | 102%nat => Throw VNull
  | _ => Normal (plain [("pong", VBool true)])
  end.

Definition bench_parse (body : string) : GQLRequestPayload + value :=
  if decide (body = "") then inr (VObj [SyntaxError_fn; Error_fn; Object_fn] [])
  else inl {| operationName := Some body;
              query := "query { pong }";
              variables := plain [] |}.

Definition bench_session : session :=
  {| endpoint := "/graphql";
     executableSchema := makeExecutableSchema ["type Query { pong: Boolean }"];
     currentDelay := 25;
     currentOps := [("Fails", VFun (FnRef "Fails" 100));
                    ("Nothing", VFun (FnRef "Nothing" 101));
                    ("ThrowsNull", VFun (FnRef "ThrowsNull" 102));
                    ("Ping", VFun (FnRef "Ping" 103));
                    ("Viewer", plain [("viewer", VNull)])];
     currentMocks := [("User", plain [("name", VStr "B")])];
     currentResolvers := [] |}.

Definition bench_globals : globals :=
  Globals (Some [("User", plain [("name", VStr "A"); ("age", VNum 3)]);
                 ("EnumField", VStr "CAT")])
          None.

Definition bench_post (body : string) : option RequestInit :=
  Some {| method := Some "POST"; body := body |}.

(** ** [getAlias]

    [name] and [endpoint] are strings when they are given. *)

Definition optional_string (o : option string) : value :=
  match o with Some s => VStr s | None => VUndefined end.

(** [name || endpoint]. *)
Definition name_or_endpoint (name endpoint : option string) : option string :=
  if truthy (optional_string name) then name else endpoint.

(** The text a template literal makes of [name || endpoint]. *)
Definition template_text (o : option string) : string :=
  match o with Some s => s | None => "undefined" end.

Definition getAlias (name endpoint : option string) : string :=
  if truthy (optional_string (name_or_endpoint name endpoint))
  then "mockGraphqlOps:" +:+ template_text (name_or_endpoint name endpoint)
  else "mockGraphqlOps".

(** The text that tells two handles apart: the name when it is not
    empty, else the endpoint when it is not empty. *)
Definition non_empty (o : option string) : option string :=
  match o with Some "" => None | _ => o end.

Definition alias_key (name endpoint : option string) : option string :=
  match non_empty name with Some s => Some s | None => non_empty endpoint end.

(** ** [schemaAsSDL] and the command [mockGraphql]

    The options of [mockGraphql] and the base options are objects; the
    interface [MockGraphQLOptions] gives the type of each property.  The
    readers below take a property at its declared type; an installation
    whose options are not of these types is [OutsideInterface], about
    which the model says nothing. *)

Definition as_string (v : value) : option string :=
  match v with VStr s => Some s | _ => None end.

Definition as_number (v : value) : option Z :=
  match v with VNum n => Some n | _ => None end.

Definition as_table (v : value) : option obj :=
  match v with VObj _ props => Some props | _ => None end.

Definition as_optional_string (v : value) : option (option string) :=
  match v with
  | VUndefined => Some None
  | VStr s => Some (Some s)
  | _ => None
  end.

(** The type definitions [makeExecutableSchema] is given: one text, or
    an array of texts. *)
Definition as_typeDefs (v : value) : option (list string) :=
  match v with
  | VStr s => Some [s]
  | VArr items => mapM as_string items
  | _ => None
  end.

(** A destructuring default [x = d]: it applies to [undefined] only. *)
Definition with_default (v d : value) : value :=
  match v with VUndefined => d | _ => v end.

(** [Installed alias s]: the handle is bound to [alias] and the
    closures share [s], once [makeExecutableSchema] has returned. *)
Inductive installation :=
| Installed (alias : string) (s : session)
| InstallError (message : string)
| InstallThrown (e : value)
| OutsideInterface.

Section Installation.

(** [printSchema(buildClientSchema(schema))], which may throw. *)
Context (print_client_schema : value -> completion).

Definition schemaAsSDL (schema : value) : completion :=
  if bool_decide (typeof schema = "string") || Array_isArray schema
  then Normal schema
  else print_client_schema schema.

(** The body of the command [mockGraphql]: the alias under which the
    handle is wrapped and the variables the installed closures share. *)
Definition mockGraphql_session (g : globals) (options : option obj) : installation :=
  let mergedOptions :=
    spread2 (default [] (commonOptions g)) (default [] options) in
  let endpoint := with_default (prop_get mergedOptions "endpoint") (VStr "/graphql") in
  let delay := with_default (prop_get mergedOptions "delay") (VNum 0) in
  let operations := with_default (prop_get mergedOptions "operations") (plain []) in
  let mocks := with_default (prop_get mergedOptions "mocks") (plain []) in
  let resolvers := with_default (prop_get mergedOptions "resolvers") (plain []) in
  let schema := with_default (prop_get mergedOptions "schema") VUndefined in
  if negb (truthy schema) then
    InstallError
      "Schema must be provided to the mockGraphql or setBaseOperationOptions"
  else
    match schemaAsSDL schema with
    | Throw e => InstallThrown e
    | Normal typeDefs =>
        let typed :=
          typeDefs' ← as_typeDefs typeDefs;
          endpoint' ← as_string endpoint;
          delay' ← as_number delay;
          operations' ← as_table operations;
          mocks' ← as_table mocks;
          resolvers' ← as_table resolvers;
          alias_name ← as_optional_string (prop_get mergedOptions "name");
          alias_endpoint ← as_optional_string (prop_get mergedOptions "endpoint");
          Some (getAlias alias_name alias_endpoint,
                Session endpoint' (makeExecutableSchema typeDefs') delay'
                        operations' mocks' resolvers') in
        match typed with
        | Some (alias, s) => Installed alias s
        | None => OutsideInterface
        end
    end.

(** The command [mockGraphql] on the aliases of the running test:
    [cy.wrap(handle).as(alias)] binds the alias to the handle, whose
    [setOperations] acts on the variables of the session. *)
Definition mockGraphql (g : globals) (options : option obj)
    (cy : gmap string session) : installation * gmap string session :=
  match mockGraphql_session g options with
  | Installed alias s => (Installed alias s, <[alias := s]> cy)
  | failure => (failure, cy)
  end.

End Installation.

(** The option [k] that an installation goes by: the property of the
    options of the call when they have it, else that of the base
    options. *)
Definition effective_option (g : globals) (options : option obj) (k : string) : value :=
  match get_own k (default [] options) with
  | Some v => v
  | None => prop_get (default [] (commonOptions g)) k
  end.

(** ** The command [mockGraphqlOps] *)

Inductive ops_result :=
| Applied
| AliasNotFound (alias : string)
| OpsThrown (e : value).

(** [options || {}]. *)
Definition no_options : SetOperationsOpts :=
  {| opt_name := None; opt_endpoint := None; opt_operations := None;
     opt_mocks := None; opt_resolvers := None; opt_delay := None |}.

(** [cy.get("@" + alias)] fails when nothing is bound to the alias;
    [.invoke("setOperations", options)] calls the handle, and with
    [options] undefined the read [options.delay] throws. *)
Definition mockGraphqlOps (options : option SetOperationsOpts)
    (cy : gmap string session) : ops_result * gmap string session :=
  let given := default no_options options in
  let alias := getAlias (opt_name given) (opt_endpoint given) in
  match cy !! alias with
  | None => (AliasNotFound alias, cy)
  | Some s =>
      match options with
      | None => (OpsThrown TypeError_value, cy)
      | Some o => (Applied, <[alias := setOperations o s]> cy)
      end
  end.

(** ** The earlier version of the module

    The second copy of the module in the repository has no base mocks
    and no base options: its [mockGraphql] reads the options of the call
    alone, with [||] for the defaults of the delay and the tables, and
    its fetch wrapper resolves the current mocks alone.  Its other
    functions are those above. *)

(** [a || b]. *)
Definition or_value (a b : value) : value := if truthy a then a else b.

Module Legacy.

Section Host.

Context (call_host : fn_ref -> value -> completion).
Context (JSON_parse : string -> GQLRequestPayload + value).
Context (print_client_schema : value -> completion).

Definition mockGraphql_session (options : obj) : installation :=
  let endpoint := with_default (prop_get options "endpoint") (VStr "/graphql") in
  let schema := with_default (prop_get options "schema") VUndefined in
  if negb (truthy schema) then
    InstallError
      "Schema must be provided to the mockGraphql or setBaseOperationOptions"
  else
    match schemaAsSDL print_client_schema schema with
    | Throw e => InstallThrown e
    | Normal typeDefs =>
        let typed :=
          typeDefs' ← as_typeDefs typeDefs;
          endpoint' ← as_string endpoint;
          delay' ← as_number (or_value (prop_get options "delay") (VNum 0));
          operations' ← as_table (or_value (prop_get options "operations") (plain []));
          mocks' ← as_table (or_value (prop_get options "mocks") (plain []));
          resolvers' ← as_table (or_value (prop_get options "resolvers") (plain []));
          alias_name ← as_optional_string (prop_get options "name");
          alias_endpoint ← as_optional_string (prop_get options "endpoint");
          Some (getAlias alias_name alias_endpoint,
                Session endpoint' (makeExecutableSchema typeDefs') delay'
                        operations' mocks' resolvers') in
        match typed with
        | Some (alias, s) => Installed alias s
        | None => OutsideInterface
        end
    end.

Definition fetch (s : session)
    (input : RequestInfo) (init : option RequestInit) : fetch_result :=
  match input with
  | RequestObject _ => originalFetch input init
  | Url url =>
      match init with
      | Some i =>
          if bool_decide (indexOf url (endpoint s) ≠ -1)
             && bool_decide (method i = Some "POST")
          then
            match JSON_parse (body i) with
            | inr e => Thrown e
            | inl payload =>
                let rootValue :=
                  getRootValue call_host (currentOps s) (operationName payload)
                               (variables payload) in
                match isGraphQLErrorLike rootValue with
                | None => Thrown TypeError_value
                | Some true =>
                    Promise Promise_resolve
                      [wait (currentDelay s);
                       respond_json (plain [("data", plain []);
                                            ("errors", VArr [rootValue])])]
                | Some false =>
                    let mocks := resolveMocks (currentMocks s) in
                    let schemaWithMocks :=
                      addMocksToSchema (executableSchema s) mocks
                                       (currentResolvers s) in
                    Promise
                      (graphql {| arg_schema := schemaWithMocks;
                                  arg_source := query payload;
                                  arg_variableValues := variables payload;
                                  arg_operationName := operationName payload;
                                  arg_rootValue := rootValue |})
                      [wait (currentDelay s); respond_json_data]
                end
            end
          else originalFetch input init
      | None => originalFetch input init
      end
  end.

End Host.

End Legacy.

(** A table whose keys are pairwise distinct, as an object literal
    without repeated keys is. *)
Definition distinct_keys (o : obj) : Prop := NoDup o.*1.

(** More of the test bench: a plain [Error] thrown by a handler and a
    schema printer for introspection results. *)
Definition a_plain_error : value := VObj [Error_fn; Object_fn] [].

Definition bench_host2 (f : fn_ref) (arg : value) : completion :=
  match fn_id f with
  | 200%nat => Throw a_plain_error
  | 201%nat => Normal arg
  | _ => bench_host f arg
  end.

Definition bench_print (q : value) : completion :=
  match q with
  | VObj _ [] => Throw (VObj [Error_fn; Object_fn] [])
  | _ => Normal (VStr "type Query { pong: Boolean }")
  end.

(** A host in which [Object(arg)] is [arg] itself for an object and a
    function, an empty object for [null] and [undefined], and a wrapper
    object otherwise (whose content is not recorded). *)
Definition bench_host3 (f : fn_ref) (arg : value) : completion :=
  if decide (f = Object_fn) then
    match arg with
    | VUndefined | VNull => Normal (plain [])
    | VBool _ => Normal (VObj [Boolean_fn; Object_fn] [])
    | VNum _ => Normal (VObj [Number_fn; Object_fn] [])
    | VStr _ => Normal (VObj [String_fn; Object_fn] [])
    | _ => Normal arg
    end
  else bench_host f arg.

Definition bench_sdl : string := "type Query { pong: Boolean }".

Definition bench_options : obj :=
  [("schema", VStr bench_sdl);
   ("mocks", plain [("User", plain [("name", VStr "B")])]);
   ("delay", VNum 25)].

Definition bench_base_options : obj :=
  [("name", VStr "api");
   ("mocks", plain [("EnumField", VStr "CAT")])].

Definition bench_installed : session :=
  Session "/graphql" (makeExecutableSchema [bench_sdl]) 25
          [] [("User", plain [("name", VStr "B")])] [].

Definition bench_ops : SetOperationsOpts :=
  {| opt_name := None; opt_endpoint := None;
     opt_operations := Some [("Ping", VFun (FnRef "Ping" 103))];
     opt_mocks := None; opt_resolvers := None; opt_delay := None |}.

Definition bench_failing_session : session :=
  Session "/graphql" (makeExecutableSchema [bench_sdl]) 10
          [("Boom", VFun (FnRef "Boom" 200))] [] [].

(** * Properties *)

(** ** Tables *)

Lemma get_own_prop_set k k' v o :
  get_own k (prop_set k' v o) = if decide (k = k') then Some v else get_own k o.
Proof.
  induction o as [|[k0 v0] o IH]; simpl.
  - repeat case_decide; congruence.
  - destruct (decide (k' = k0)) as [->|Hne]; simpl.
    + repeat case_decide; congruence.
    + rewrite IH. repeat case_decide; congruence.
Qed.

Lemma get_own_to_map k o : to_map o !! k = get_own k o.
Proof.
  unfold to_map. induction o as [|[k0 v0] o IH]; simpl.
  - apply lookup_empty.
  - rewrite lookup_insert. destruct (decide (k0 = k)), (decide (k = k0)); congruence.
Qed.

Lemma elem_of_Object_keys k o : k ∈ Object_keys o ↔ is_Some (get_own k o).
Proof.
  induction o as [|[k0 v0] o IH]; simpl.
  - rewrite elem_of_nil. split; [tauto | intros []; discriminate].
  - rewrite elem_of_cons, list_elem_of_filter, IH.
    destruct (decide (k = k0)) as [->|Hne].
    + split; eauto.
    + tauto.
Qed.

Lemma NoDup_Object_keys o : NoDup (Object_keys o).
Proof.
  induction o as [|[k0 v0] o IH]; simpl.
  - constructor.
  - constructor.
    + rewrite list_elem_of_filter. tauto.
    + by apply NoDup_filter.
Qed.


Lemma filter_all {A} (P : A → Prop) `{∀ x, Decision (P x)} (l : list A) :
  (∀ x, x ∈ l → P x) → filter P l = l.
Proof.
  induction l as [|x l IH]; intros Hall; [done|].
  rewrite filter_cons_True by (apply Hall; left).
  f_equal. apply IH. intros y Hy. apply Hall. by right.
Qed.

Lemma Object_keys_fst o : NoDup o.*1 → Object_keys o = o.*1.
Proof.
  induction o as [|[k0 v0] o IH]; csimpl; [done|].
  intros [Hni Hnd]%NoDup_cons. rewrite IH by done. f_equal.
  apply filter_all. intros k Hk ->. done.
Qed.

Lemma fst_prop_set k v o :
  (prop_set k v o).*1 = if decide (k ∈ o.*1) then o.*1 else o.*1 ++ [k].
Proof.
  induction o as [|[k0 v0] o IH]; csimpl.
  - done.
  - destruct (decide (k = k0)) as [->|Hne]; csimpl.
    + rewrite decide_True by left. done.
    + rewrite IH. destruct (decide (k ∈ o.*1)) as [Hin|Hni].
      * rewrite decide_True by (by right). done.
      * rewrite decide_False; [done|]. rewrite elem_of_cons. tauto.
Qed.

Section store_all.

Context (f : string → value).

Lemma get_own_store_all k ks acc :
  get_own k (fold_left (λ acc k, prop_set k (f k) acc) ks acc)
  = if decide (k ∈ ks) then Some (f k) else get_own k acc.
Proof.
  revert acc. induction ks as [|k0 ks IH]; intros acc; simpl.
  - done.
  - rewrite IH, get_own_prop_set.
    destruct (decide (k ∈ ks)) as [Hin|Hni].
    + rewrite decide_True by (by right). done.
    + destruct (decide (k = k0)) as [->|Hne].
      * rewrite decide_True by left. done.
      * rewrite decide_False; [done|]. rewrite elem_of_cons. tauto.
Qed.

Lemma fst_store_all ks acc :
  NoDup (acc.*1 ++ ks) →
  (fold_left (λ acc k, prop_set k (f k) acc) ks acc).*1 = acc.*1 ++ ks.
Proof.
  revert acc. induction ks as [|k0 ks IH]; intros acc Hnd; simpl.
  - by rewrite app_nil_r.
  - assert (Hk0 : k0 ∉ acc.*1).
    { apply NoDup_app in Hnd as (_ & Hdisj & _).
      intros Hin. apply (Hdisj _ Hin). left. }
    rewrite IH.
    + rewrite fst_prop_set, decide_False by done. by rewrite <- app_assoc.
    + rewrite fst_prop_set, decide_False by done.
      rewrite <- app_assoc. done.
Qed.

End store_all.

Lemma get_own_copy_props k target source :
  get_own k (copy_props target source)
  = match get_own k source with Some v => Some v | None => get_own k target end.
Proof.
  unfold copy_props.
  rewrite (get_own_store_all (prop_get source)).
  destruct (decide (k ∈ Object_keys source)) as [Hin|Hni].
  - apply elem_of_Object_keys in Hin as [v Hv]. unfold prop_get. by rewrite Hv.
  - destruct (get_own k source) eqn:E; [|done].
    exfalso. apply Hni, elem_of_Object_keys. eauto.
Qed.

Lemma get_own_spread2 k a b :
  get_own k (spread2 a b)
  = match get_own k b with Some v => Some v | None => get_own k a end.
Proof.
  unfold spread2. rewrite !get_own_copy_props. simpl.
  by destruct (get_own k b), (get_own k a).
Qed.

Lemma to_map_spread2 a b : to_map (spread2 a b) = to_map b ∪ to_map a.
Proof.
  apply map_eq. intros k.
  rewrite lookup_union, !get_own_to_map, get_own_spread2.
  by destruct (get_own k b), (get_own k a).
Qed.

Lemma get_own_objectMap k o mapFn :
  get_own k (objectMap o mapFn) = (λ v, mapFn v k) <$> get_own k o.
Proof.
  unfold objectMap.
  rewrite (get_own_store_all (λ key, mapFn (prop_get o key) key)).
  destruct (decide (k ∈ Object_keys o)) as [Hin|Hni].
  - apply elem_of_Object_keys in Hin as [v Hv]. unfold prop_get. by rewrite Hv.
  - destruct (get_own k o) eqn:E; [|done].
    exfalso. apply Hni, elem_of_Object_keys. eauto.
Qed.

Lemma to_map_objectMap o mapFn :
  to_map (objectMap o mapFn) = map_imap (λ k v, Some (mapFn v k)) (to_map o).
Proof.
  apply map_eq. intros k.
  rewrite map_lookup_imap, !get_own_to_map, get_own_objectMap.
  by destruct (get_own k o).
Qed.

Lemma fst_objectMap o mapFn : (objectMap o mapFn).*1 = Object_keys o.
Proof.
  unfold objectMap.
  rewrite (fst_store_all (λ key, mapFn (prop_get o key) key)); [done|].
  apply NoDup_Object_keys.
Qed.

Lemma Object_keys_objectMap o mapFn :
  Object_keys (objectMap o mapFn) = Object_keys o.
Proof.
  rewrite Object_keys_fst; rewrite fst_objectMap; [done|apply NoDup_Object_keys].
Qed.

(** ** Substring search *)

Lemma append_cons c s t : String c s +:+ t = String c (s +:+ t).
Proof. reflexivity. Qed.

Lemma append_empty t : "" +:+ t = t.
Proof. reflexivity. Qed.

Lemma prefix_spec pat s : String.prefix pat s = true ↔ ∃ post, s = pat +:+ post.
Proof.
  revert s. induction pat as [|a pat IH]; intros s; simpl.
  - destruct s; split; eauto.
  - destruct s as [|b s]; simpl.
    + split; [discriminate | intros [post H]; discriminate].
    + destruct (Ascii.ascii_dec a b) as [->|Hne].
      * rewrite IH. split; intros [post H]; exists post;
          rewrite append_cons in *; congruence.
      * split; [discriminate|]. intros [post H].
        rewrite append_cons in H. congruence.
Qed.

Lemma contains_cons c s pat :
  String.prefix pat (String c s) = false →
  contains (String c s) pat ↔ contains s pat.
Proof.
  intros Hpre. split; intros (pre & post & H).
  - destruct pre as [|c' pre].
    + rewrite append_empty in H.
      assert (String.prefix pat (String c s) = true) by (apply prefix_spec; eauto).
      congruence.
    + exists pre, post. rewrite append_cons in H. congruence.
  - exists (String c pre), post. rewrite append_cons. congruence.
Qed.

Lemma indexOf_from_contains i s pat :
  0 ≤ i → indexOf_from i s pat ≠ -1 ↔ contains s pat.
Proof.
  revert i. induction s as [|c s IH]; intros i Hi; cbn [indexOf_from].
  - destruct (String.prefix pat "") eqn:E.
    + split; [|lia]. intros _. apply prefix_spec in E as [post E].
      exists "", post. done.
    + split; [done|]. intros (pre & post & H).
      destruct pre; [|discriminate]. rewrite append_empty in H.
      assert (String.prefix pat "" = true) by (apply prefix_spec; eauto).
      congruence.
  - destruct (String.prefix pat (String c s)) eqn:E.
    + split; [|lia]. intros _. apply prefix_spec in E as [post E].
      exists "", post. done.
    + rewrite contains_cons by done. apply IH. lia.
Qed.

Lemma indexOf_contains s pat : indexOf s pat ≠ -1 ↔ contains s pat.
Proof. apply indexOf_from_contains. lia. Qed.

(** ** The override merger *)

(** What [mergeMocks] leaves under a key: for a key of [mocks], what
    the callback handed to [objectMap] returns; for any other key, the
    entry of [currentMocks]. *)
Lemma get_own_mergeMocks k currentMocks mocks :
  get_own k (mergeMocks currentMocks mocks)
  = match get_own k mocks with
    | Some v =>
        Some (if isObject (prop_get currentMocks k) && isObject v
              then plain (spread2 (spreadable (prop_get currentMocks k))
                                  (spreadable v))
              else v)
    | None => get_own k currentMocks
    end.
Proof.
  unfold mergeMocks. rewrite get_own_spread2, get_own_objectMap.
  by destruct (get_own k mocks).
Qed.

Lemma mergeMocks_keys k currentMocks mocks :
  k ∈ Object_keys (mergeMocks currentMocks mocks)
  ↔ k ∈ Object_keys currentMocks ∨ k ∈ Object_keys mocks.
Proof.
  rewrite !elem_of_Object_keys, get_own_mergeMocks.
  destruct (get_own k mocks), (get_own k currentMocks);
    split; eauto; intros [[? ?]|[? ?]]; eauto; discriminate.
Qed.

(** Two objects under the same key are united one level deep. *)
Lemma mergeMocks_objects k currentMocks mocks p1 f1 p2 f2 :
  get_own k currentMocks = Some (VObj p1 f1) →
  get_own k mocks = Some (VObj p2 f2) →
  get_own k (mergeMocks currentMocks mocks) = Some (plain (spread2 f1 f2)).
Proof.
  intros H1 H2. rewrite get_own_mergeMocks, H2.
  unfold prop_get. rewrite H1. done.
Qed.

(** An entry replaces the current one as soon as one of the two fails
    [isObject]. *)
Lemma mergeMocks_replaces k currentMocks mocks v :
  get_own k mocks = Some v →
  isObject v = false ∨ isObject (prop_get currentMocks k) = false →
  get_own k (mergeMocks currentMocks mocks) = Some v.
Proof.
  intros H2 Hno. rewrite get_own_mergeMocks, H2.
  destruct Hno as [-> | ->]; [by rewrite andb_false_r | done].
Qed.

(** [isObject] accepts the objects that are not arrays, and [null]. *)
Lemma isObject_spec v :
  isObject v = true ↔ v = VNull ∨ ∃ protos props, v = VObj protos props.
Proof.
  destruct v; cbn; split; try discriminate; eauto;
    intros [?|(? & ? & ?)]; discriminate.
Qed.

(** C1: the specification has an override value that is a primitive
    replace the base value exactly.  [null] is a primitive, yet
    [isObject(null)] holds, so an override [{ User: null }] over a base
    [{ User: { name: "A" } }] is spread into the base object: the merged
    table still holds [{ name: "A" }] under [User], not [null]. *)
Theorem mergeMocks_null_override :
  let base := [("User", plain [("name", VStr "A")])] in
  let override := [("User", VNull)] in
  get_own "User" base = Some (plain [("name", VStr "A")])
  ∧ get_own "User" override = Some VNull
  ∧ isObject VNull = true
  ∧ get_own "User" (mergeMocks base override)
    = Some (plain [("name", VStr "A")]).
Proof. repeat split. Qed.

(** Read as maps: the entries of [mocks], merged with the current
    entry under the same key, over the entries of [currentMocks]. *)
Lemma to_map_mergeMocks currentMocks mocks :
  to_map (mergeMocks currentMocks mocks)
  = map_imap (λ k v,
      Some (if isObject (prop_get currentMocks k) && isObject v
            then plain (spread2 (spreadable (prop_get currentMocks k))
                                (spreadable v))
            else v)) (to_map mocks)
    ∪ to_map currentMocks.
Proof.
  apply map_eq. intros k.
  rewrite lookup_union, map_lookup_imap, !get_own_to_map, get_own_mergeMocks.
  by destruct (get_own k mocks), (get_own k currentMocks).
Qed.

(** With no key in common the merge is the union of the two tables. *)
Lemma to_map_mergeMocks_disjoint currentMocks mocks :
  (∀ k, get_own k currentMocks = None ∨ get_own k mocks = None) →
  to_map (mergeMocks currentMocks mocks) = to_map mocks ∪ to_map currentMocks.
Proof.
  intros Hdisj. apply map_eq. intros k.
  rewrite lookup_union, !get_own_to_map, get_own_mergeMocks.
  destruct (Hdisj k) as [Hk|Hk]; rewrite Hk.
  - unfold prop_get. rewrite Hk. cbn. by destruct (get_own k mocks).
  - by destruct (get_own k currentMocks).
Qed.

(** ** The mock-table resolver *)

Lemma typeof_function v :
  instanceof_Function v = true → typeof v = "function".
Proof. destruct v; cbn; (done || discriminate). Qed.

(** The functions of type [function] that are no instance of
    [Function] are those of another realm. *)
Lemma typeof_function_cases v :
  typeof v = "function"
  ↔ instanceof_Function v = true ∨ ∃ f, v = VForeignFun f.
Proof.
  destruct v; cbn; split; try discriminate; eauto;
    intros [?|[? ?]]; discriminate.
Qed.

Lemma function_truthy v : typeof v = "function" → truthy v = true.
Proof. destruct v; cbn; (done || discriminate). Qed.

(** [resolveMocks] keeps the keys of the table, in their order; an
    entry that is an instance of [Function] is kept as it is, and any
    other entry [m], nested or not, becomes the function [() => m],
    which returns [m] itself whatever it is called with. *)
Lemma resolveMocks_spec call_host (M : obj) :
  Object_keys (resolveMocks M) = Object_keys M
  ∧ (∀ k, get_own k (resolveMocks M) = asFunction <$> get_own k M)
  ∧ (∀ m, instanceof_Function m = true → asFunction m = m)
  ∧ (∀ m, instanceof_Function m = false →
       asFunction m = VConstFn m
       ∧ ∀ arg, call call_host (asFunction m) arg = Normal m).
Proof.
  unfold resolveMocks. split; [apply Object_keys_objectMap|].
  split; [intros k; apply get_own_objectMap|].
  split; intros m Hm; unfold asFunction; by rewrite Hm.
Qed.

(** C7: the specification has every entry that is a function pass
    through unchanged.  [asFunction] tests [m instanceof Function],
    which is false of a function made in another realm, where
    [getRootValue] tests [typeof op === "function"]: such a mock is not
    passed through but wrapped, and the wrapper returns the function
    instead of calling it, while the same function as an operation
    handler is called. *)
Theorem resolveMocks_wraps_foreign_function call_host f arg :
  typeof (VForeignFun f) = "function"
  ∧ resolveMocks [("User", VForeignFun f)] = [("User", VConstFn (VForeignFun f))]
  ∧ call call_host (VConstFn (VForeignFun f)) arg = Normal (VForeignFun f)
  ∧ getRootValue call_host [("User", VForeignFun f)] (Some "User") arg
    = match call_host f arg with Normal v => v | Throw e => e end.
Proof. repeat split. Qed.

Lemma to_map_resolveMocks M : to_map (resolveMocks M) = asFunction <$> to_map M.
Proof.
  apply map_eq. intros k. unfold resolveMocks.
  by rewrite lookup_fmap, !get_own_to_map, get_own_objectMap.
Qed.

(** ** The operation root resolver *)



(** An own entry hides what the table inherits under the same name. *)
Lemma table_get_own operations name v :
  get_own name operations = Some v → table_get operations name = v.
Proof. intros H. unfold table_get. by rewrite H. Qed.

(** A handler is called with the variables; what it returns or throws
    is the root value. *)
Lemma getRootValue_handler call_host operations name variables h :
  name ≠ "" →
  get_own name operations = Some h →
  typeof h = "function" →
  getRootValue call_host operations (Some name) variables
  = match call call_host h variables with Normal v => v | Throw e => e end.
Proof.
  intros Hname Hh Hfun. unfold getRootValue.
  rewrite (table_get_own _ _ _ Hh). cbn.
  rewrite (function_truthy _ Hfun), bool_decide_true by done.
  destruct (String.eqb_spec name ""); [done|]. done.
Qed.

(** Under a name that is no key of the table but the name of a method
    of [Object.prototype], the inherited method is taken for a handler
    and called with the variables. *)
Lemma getRootValue_inherited_method call_host operations name variables :
  get_own name operations = None →
  name ∈ Object_prototype_methods →
  getRootValue call_host operations (Some name) variables
  = match call_host (FnRef name 20) variables with
    | Normal v => v
    | Throw e => e
    end.
Proof.
  intros Habs Hin. unfold getRootValue, table_get, inherited_member.
  rewrite Habs.
  assert (name ≠ "constructor")
    by (intros ->; revert Hin; by apply (bool_decide_eq_false_1 _)).
  assert (name ≠ "__proto__")
    by (intros ->; revert Hin; by apply (bool_decide_eq_false_1 _)).
  assert (name ≠ "")
    by (intros ->; revert Hin; by apply (bool_decide_eq_false_1 _)).
  rewrite !decide_False by done. rewrite decide_True by done. cbn.
  destruct (String.eqb_spec name ""); done.
Qed.

(** [mergeMocks] reads [currentMocks[key]] too, with [prop_get]:
    whether the value read is an object does not depend on what the
    table inherits, the key [__proto__] apart. *)
Lemma isObject_table_get table k :
  k ≠ "__proto__" → isObject (table_get table k) = isObject (prop_get table k).
Proof.
  intros Hk. unfold table_get, prop_get, inherited_member.
  destruct (get_own k table); [done|].
  rewrite (decide_False (P := k = "__proto__")) by done.
  by repeat case_decide.
Qed.

(** C3: the specification has every operation name that is not a key
    of the operation table answered with an empty object.  The test
    [!operations[operationName]] reads through the prototype chain: for
    the name [constructor], which is no key of the table, it finds
    [Object], takes it for a handler and returns [Object(variables)],
    the variables themselves. *)
Theorem getRootValue_inherited_name :
  let operations := [("Ping", VFun (FnRef "Ping" 103))] in
  let variables := plain [("id", VNum 7)] in
  get_own "constructor" operations = None
  ∧ table_get operations "constructor" = VFun Object_fn
  ∧ getRootValue bench_host3 operations (Some "constructor") variables
    = variables
  ∧ getRootValue bench_host3 operations (Some "constructor") variables
    ≠ plain [].
Proof. repeat split; done. Qed.

(** C4, as the code has it: under a name that is not empty, an entry
    that is not a function is returned as the root value when it is
    truthy, and answered with an empty object when it is falsy. *)
Theorem getRootValue_literal call_host operations name variables v :
  name ≠ "" →
  get_own name operations = Some v →
  typeof v ≠ "function" →
  getRootValue call_host operations (Some name) variables
  = if truthy v then v else plain [].
Proof.
  intros Hname Hv Hlit. unfold getRootValue.
  rewrite (table_get_own _ _ _ Hv). cbn.
  destruct (String.eqb_spec name ""); [done|]. cbn.
  destruct (truthy v); [|done]. cbn. by rewrite bool_decide_false.
Qed.

Lemma getRootValue_literal_witness :
  getRootValue bench_host (currentOps bench_session) (Some "Viewer") (plain [])
  = plain [("viewer", VNull)]
  ∧ getRootValue bench_host [("Count", VNum 0)] (Some "Count") (plain [])
    = plain [].
Proof.
  split.
  - apply (getRootValue_literal bench_host (currentOps bench_session) "Viewer"
             (plain []) (plain [("viewer", VNull)]));
      [discriminate | reflexivity | discriminate].
  - apply (getRootValue_literal bench_host [("Count", VNum 0)] "Count"
             (plain []) (VNum 0));
      [discriminate | reflexivity | discriminate].
Defined.

(** C4, as the specification words it, fails on a falsy entry: the
    table [{ Viewer: null }] has the non-function entry [null] under
    [Viewer], and [getRootValue] returns an empty object, not [null]. *)
Lemma getRootValue_falsy_literal :
  let operations := [("Viewer", VNull)] in
  get_own "Viewer" operations = Some VNull
  ∧ typeof VNull ≠ "function"
  ∧ getRootValue bench_host operations (Some "Viewer") (plain []) = plain []
  ∧ getRootValue bench_host operations (Some "Viewer") (plain []) ≠ VNull.
Proof. repeat split; done. Qed.

(** ** The once-only registrations *)

Lemma setBaseGraphqlMocks_again rest g m :
  commonMocks g = Some m →
  run_all setBaseGraphqlMocks rest g
  = ((λ _, SetupError "setBaseGraphqlMocks may only be called once, already called.")
       <$> rest, g).
Proof.
  intros Hset. induction rest as [|a rest IH]; [done|].
  cbn [run_all]. unfold setBaseGraphqlMocks at 1. rewrite Hset, IH. done.
Qed.

Lemma setBaseOperationOptions_again rest g o :
  commonOptions g = Some o →
  run_all setBaseOperationOptions rest g
  = ((λ _, SetupError "setBaseOperationOptions may only be called once, already called.")
       <$> rest, g).
Proof.
  intros Hset. induction rest as [|a rest IH]; [done|].
  cbn [run_all]. unfold setBaseOperationOptions at 1. rewrite Hset, IH. done.
Qed.

(** C5: while its slot is still empty, [setBaseGraphqlMocks] (and
    likewise [setBaseOperationOptions]) stores its argument and returns
    it; every later call throws the setup error and leaves the value of
    the first call in the slot. *)
Theorem registration_only_once first rest other :
  run_all setBaseGraphqlMocks (first :: rest) (Globals None other)
  = (Returned first
       :: ((λ _, SetupError "setBaseGraphqlMocks may only be called once, already called.")
             <$> rest),
     Globals (Some first) other)
  ∧ run_all setBaseOperationOptions (first :: rest) (Globals other None)
    = (Returned first
         :: ((λ _, SetupError "setBaseOperationOptions may only be called once, already called.")
               <$> rest),
       Globals other (Some first)).
Proof.
  split; cbn [run_all].
  - unfold setBaseGraphqlMocks at 1. cbn.
    by rewrite (setBaseGraphqlMocks_again rest _ first).
  - unfold setBaseOperationOptions at 1. cbn.
    by rewrite (setBaseOperationOptions_again rest _ first).
Qed.

(** Setting the base mocks twice in a fresh process. *)
Example registration_twice :
  let mocks := [("EnumField", VConstFn (VStr "CAT"))] in
  run_all setBaseGraphqlMocks [mocks; [("EnumField", VConstFn (VStr "DOG"))]]
          initial_globals
  = ([Returned mocks;
      SetupError "setBaseGraphqlMocks may only be called once, already called."],
     Globals (Some mocks) None).
Proof. reflexivity. Qed.

(** ** The session handle *)

Lemma delay_or_zero_default d : delay_or_zero d = default 0 d.
Proof.
  destruct d as [n|]; [|done]. cbn.
  destruct (Z.eqb_spec n 0); [by subst | done].
Qed.

(** [setOperations] replaces the delay by the one given, or by zero
    when none is given; an operation given replaces the current one
    under its name as it is and the other operations stay; the mocks
    and the resolvers, when given, are merged into the current ones by
    [mergeMocks], and stay as they are otherwise. *)
Lemma setOperations_spec options s :
  let s' := setOperations options s in
  currentDelay s' = default 0 (opt_delay options)
  ∧ (∀ k, get_own k (currentOps s')
          = match opt_operations options ≫= get_own k with
            | Some v => Some v
            | None => get_own k (currentOps s)
            end)
  ∧ currentMocks s'
    = match opt_mocks options with
      | Some m => mergeMocks (currentMocks s) m
      | None => currentMocks s
      end
  ∧ currentResolvers s'
    = match opt_resolvers options with
      | Some r => mergeMocks (currentResolvers s) r
      | None => currentResolvers s
      end
  ∧ endpoint s' = endpoint s
  ∧ executableSchema s' = executableSchema s.
Proof.
  cbn. split; [apply delay_or_zero_default|].
  split; [|done].
  intros k. rewrite get_own_spread2.
  by destruct (opt_operations options).
Qed.

(** What [setOperations] leaves in the mocks under a key of the mocks
    it is given: two objects are united one level deep, and in every
    other case where one of the two is an array or not of type
    [object], the entry given replaces the current one. *)
Lemma setOperations_mock_entry options s mocks k v :
  opt_mocks options = Some mocks →
  get_own k mocks = Some v →
  (∀ p1 f1 p2 f2,
     get_own k (currentMocks s) = Some (VObj p1 f1) → v = VObj p2 f2 →
     get_own k (currentMocks (setOperations options s))
     = Some (plain (spread2 f1 f2)))
  ∧ (isObject v = false ∨ isObject (prop_get (currentMocks s) k) = false →
     get_own k (currentMocks (setOperations options s)) = Some v).
Proof.
  intros Hmocks Hv. cbn. rewrite Hmocks. split.
  - intros p1 f1 p2 f2 Hcur ->. by apply (mergeMocks_objects _ _ _ p1 _ p2).
  - by apply mergeMocks_replaces.
Qed.

(** C8: the specification has the mocks and the resolvers given to
    [setOperations] merged by the semantics of the override merger, in
    which a primitive replaces what is there.  [setOperations] merges
    them with [mergeMocks], whose [isObject] takes [null] for an
    object: given [{ mocks: { User: null }, resolvers: { User: null } }],
    a session that holds [{ name: "A" }] under [User] still holds it
    afterwards, in both tables. *)
Theorem setOperations_null_override :
  let s := Session "/graphql" (makeExecutableSchema [bench_sdl]) 0 []
                   [("User", plain [("name", VStr "A")])]
                   [("User", plain [("name", VStr "A")])] in
  let options := {| opt_name := None; opt_endpoint := None;
                    opt_operations := None;
                    opt_mocks := Some [("User", VNull)];
                    opt_resolvers := Some [("User", VNull)];
                    opt_delay := None |} in
  get_own "User" (currentMocks (setOperations options s))
  = Some (plain [("name", VStr "A")])
  ∧ get_own "User" (currentResolvers (setOperations options s))
    = Some (plain [("name", VStr "A")]).
Proof. split; reflexivity. Qed.

(** ** The fetch wrapper *)

(** The mock pipeline that a routed request enters. *)
Lemma fetch_routed call_host JSON_parse g s url i :
  contains url (endpoint s) →
  method i = Some "POST" →
  fetch call_host JSON_parse g s (Url url) (Some i)
  = match JSON_parse (body i) with
    | inr e => Thrown e
    | inl payload =>
        let rootValue :=
          getRootValue call_host (currentOps s) (operationName payload)
                       (variables payload) in
        match isGraphQLErrorLike rootValue with
        | None => Thrown TypeError_value
        | Some true =>
            Promise Promise_resolve
              [wait (currentDelay s);
               respond_json (plain [("data", plain []);
                                    ("errors", VArr [rootValue])])]
        | Some false =>
            Promise
              (graphql
                 {| arg_schema :=
                      addMocksToSchema (executableSchema s)
                        (resolveMocks (spread2 (default [] (commonMocks g))
                                               (currentMocks s)))
                        (currentResolvers s);
                    arg_source := query payload;
                    arg_variableValues := variables payload;
                    arg_operationName := operationName payload;
                    arg_rootValue := rootValue |})
              [wait (currentDelay s); respond_json_data]
        end
    end.
Proof.
  intros Hurl%indexOf_contains Hpost. unfold fetch.
  rewrite !bool_decide_true by done. done.
Qed.

(** C6: a request that is not a plain URL string containing the
    endpoint and sent with POST is handed to the original fetch with
    the same arguments; a request that is all of that never reaches the
    original fetch. *)
Theorem fetch_pass_through call_host JSON_parse g s input init :
  (¬ routed (endpoint s) input init →
   fetch call_host JSON_parse g s input init = originalFetch input init)
  ∧ (routed (endpoint s) input init →
     ∀ input' init',
       fetch call_host JSON_parse g s input init ≠ originalFetch input' init').
Proof.
  split.
  - intros Hno. unfold fetch.
    destruct input as [url|?]; [|done].
    destruct init as [i|]; [|done].
    destruct (bool_decide _) eqn:E1; [|done].
    destruct (bool_decide (method i = _)) eqn:E2; [|done].
    exfalso. apply Hno. exists url, i.
    apply bool_decide_eq_true in E1, E2.
    by rewrite <- indexOf_contains.
  - intros (url & i & -> & -> & Hurl & Hpost) input' init'.
    rewrite fetch_routed by done.
    destruct (JSON_parse (body i)) as [payload|e]; [|done].
    cbv zeta. by destruct (isGraphQLErrorLike _) as [[]|].
Qed.

(** A GET to the endpoint, a POST elsewhere, a request object and a
    call without [init] all pass through. *)
Example fetch_pass_through_cases :
  let get := Some {| method := Some "GET"; body := "Ping" |} in
  fetch bench_host bench_parse bench_globals bench_session (Url "/graphql") get
  = originalFetch (Url "/graphql") get
  ∧ fetch bench_host bench_parse bench_globals bench_session
          (Url "/rest/users") (bench_post "Ping")
    = originalFetch (Url "/rest/users") (bench_post "Ping")
  ∧ fetch bench_host bench_parse bench_globals bench_session
          (RequestObject "/graphql") (bench_post "Ping")
    = originalFetch (RequestObject "/graphql") (bench_post "Ping")
  ∧ fetch bench_host bench_parse bench_globals bench_session (Url "/graphql") None
    = originalFetch (Url "/graphql") None.
Proof. repeat split. Qed.

(** C2: when the handler of the requested operation throws [E],
    [getRootValue] returns [E]; and when [E] passes the error check,
    the wrapper answers with a promise that first waits for the current
    delay and then responds with [{ data: {}, errors: [E] }]. *)
Theorem handler_throw_is_error_response
    call_host JSON_parse g s url i payload name h E :
  contains url (endpoint s) →
  method i = Some "POST" →
  JSON_parse (body i) = inl payload →
  operationName payload = Some name →
  name ≠ "" →
  get_own name (currentOps s) = Some h →
  typeof h = "function" →
  call call_host h (variables payload) = Throw E →
  getRootValue call_host (currentOps s) (Some name) (variables payload) = E
  ∧ (isGraphQLErrorLike E = Some true →
     fetch call_host JSON_parse g s (Url url) (Some i)
     = Promise Promise_resolve
         [wait (currentDelay s);
          respond_json (plain [("data", plain []); ("errors", VArr [E])])]).
Proof.
  intros Hurl Hpost Hparse Hop Hname Hh Hfun Hthrow.
  assert (Hroot : getRootValue call_host (currentOps s) (Some name)
                               (variables payload) = E).
  { rewrite (getRootValue_handler _ _ _ _ h) by done. by rewrite Hthrow. }
  split; [done|]. intros Hlike.
  rewrite fetch_routed, Hparse by done. cbv zeta.
  by rewrite Hop, Hroot, Hlike.
Qed.

Lemma handler_throw_is_error_response_witness :
  getRootValue bench_host (currentOps bench_session) (Some "Fails") (plain [])
  = a_graphql_error
  ∧ fetch bench_host bench_parse bench_globals bench_session
          (Url "https://example.test/graphql") (bench_post "Fails")
    = Promise Promise_resolve
        [wait 25;
         respond_json (plain [("data", plain []);
                              ("errors", VArr [a_graphql_error])])].
Proof.
  destruct (handler_throw_is_error_response bench_host bench_parse
              bench_globals bench_session "https://example.test/graphql"
              {| method := Some "POST"; body := "Fails" |}
              {| operationName := Some "Fails"; query := "query { pong }";
                 variables := plain [] |}
              "Fails" (VFun (FnRef "Fails" 100)) a_graphql_error)
    as [Hroot Hfetch].
  - exists "https://example.test", "". reflexivity.
  - reflexivity.
  - reflexivity.
  - reflexivity.
  - discriminate.
  - reflexivity.
  - reflexivity.
  - reflexivity.
  - split; [exact Hroot | apply Hfetch; reflexivity].
Defined.

(** When the error check itself throws. *)
Lemma isGraphQLErrorLike_throws v :
  isGraphQLErrorLike v = None →
  v = VNull ∨ v = VUndefined
  ∨ ∃ c, constructor_of v = Some c ∧ name_of c = None.
Proof.
  unfold isGraphQLErrorLike.
  destruct (instanceof_GraphQLError v); [discriminate|].
  destruct v; cbn; eauto; try discriminate.
  destruct (get_own "constructor" props) as [c|]; cbn.
  - destruct (is_fn c GraphQLError); [discriminate|].
    destruct (name_of c) eqn:E; [discriminate|]. eauto 10.
  - destruct protos as [|c protos]; cbn; [eauto 10|].
    destruct (bool_decide _); discriminate.
Qed.

(** C9: when the root value of a routed request is [null] or
    [undefined], the error check throws on reading [.constructor], and
    the wrapper throws that [TypeError] instead of returning a
    response. *)
Theorem nullish_root_value_throws call_host JSON_parse g s url i payload :
  contains url (endpoint s) →
  method i = Some "POST" →
  JSON_parse (body i) = inl payload →
  getRootValue call_host (currentOps s) (operationName payload)
               (variables payload) = VNull
  ∨ getRootValue call_host (currentOps s) (operationName payload)
                 (variables payload) = VUndefined →
  isGraphQLErrorLike
    (getRootValue call_host (currentOps s) (operationName payload)
                  (variables payload))
  = None
  ∧ fetch call_host JSON_parse g s (Url url) (Some i) = Thrown TypeError_value.
Proof.
  intros Hurl Hpost Hparse Hroot.
  rewrite fetch_routed, Hparse by done. cbv zeta.
  by destruct Hroot as [-> | ->].
Qed.

Lemma nullish_root_value_throws_witness :
  getRootValue bench_host (currentOps bench_session) (Some "Nothing") (plain [])
  = VUndefined
  ∧ fetch bench_host bench_parse bench_globals bench_session
          (Url "/graphql") (bench_post "Nothing")
    = Thrown TypeError_value.
Proof.
  split; [reflexivity|].
  apply (nullish_root_value_throws bench_host bench_parse bench_globals
           bench_session "/graphql"
           {| method := Some "POST"; body := "Nothing" |}
           {| operationName := Some "Nothing"; query := "query { pong }";
              variables := plain [] |}).
  - exists "", "". reflexivity.
  - reflexivity.
  - reflexivity.
  - right. reflexivity.
Defined.

(** A handler that throws [null] has the same effect. *)
Lemma thrown_null_root_value_throws :
  getRootValue bench_host (currentOps bench_session) (Some "ThrowsNull") (plain [])
  = VNull
  ∧ fetch bench_host bench_parse bench_globals bench_session
          (Url "/graphql") (bench_post "ThrowsNull")
    = Thrown TypeError_value.
Proof. split; reflexivity. Qed.

(** C10: for a routed request that is not answered with an error, the
    mocks handed to [addMocksToSchema] are [resolveMocks] of a table in
    which every key of the current mocks has the current value as it
    is, and every other key has the value of the base mocks; the
    resolvers handed over are the current resolvers alone.  On objects
    this table differs from what [mergeMocks] builds. *)
Theorem request_mocks_are_spread call_host JSON_parse g s url i payload :
  contains url (endpoint s) →
  method i = Some "POST" →
  JSON_parse (body i) = inl payload →
  isGraphQLErrorLike
    (getRootValue call_host (currentOps s) (operationName payload)
                  (variables payload))
  = Some false →
  (∃ combined,
     fetch call_host JSON_parse g s (Url url) (Some i)
     = Promise
         (graphql
            {| arg_schema :=
                 addMocksToSchema (executableSchema s) (resolveMocks combined)
                                  (currentResolvers s);
               arg_source := query payload;
               arg_variableValues := variables payload;
               arg_operationName := operationName payload;
               arg_rootValue :=
                 getRootValue call_host (currentOps s) (operationName payload)
                              (variables payload) |})
         [wait (currentDelay s); respond_json_data]
     ∧ (∀ k, get_own k combined
             = match get_own k (currentMocks s) with
               | Some v => Some v
               | None => commonMocks g ≫= get_own k
               end))
  ∧ (let base := [("User", plain [("name", VStr "A"); ("age", VNum 3)])] in
     let current := [("User", plain [("name", VStr "B")])] in
     get_own "User" (spread2 base current) = Some (plain [("name", VStr "B")])
     ∧ get_own "User" (mergeMocks base current)
       = Some (plain [("name", VStr "B"); ("age", VNum 3)])).
Proof.
  intros Hurl Hpost Hparse Hlike. split; [|by split].
  exists (spread2 (default [] (commonMocks g)) (currentMocks s)). split.
  - rewrite fetch_routed, Hparse by done. cbv zeta. by rewrite Hlike.
  - intros k. rewrite get_own_spread2.
    destruct (get_own k (currentMocks s)); [done|].
    by destruct (commonMocks g).
Qed.

Lemma request_mocks_are_spread_witness :
  ∃ combined,
    fetch bench_host bench_parse bench_globals bench_session
          (Url "/graphql") (bench_post "Ping")
    = Promise
        (graphql
           {| arg_schema :=
                addMocksToSchema (executableSchema bench_session)
                                 (resolveMocks combined) [];
              arg_source := "query { pong }";
              arg_variableValues := plain [];
              arg_operationName := Some "Ping";
              arg_rootValue := plain [("pong", VBool true)] |})
        [wait 25; respond_json_data]
    ∧ get_own "User" combined = Some (plain [("name", VStr "B")])
    ∧ get_own "EnumField" combined = Some (VStr "CAT").
Proof.
  destruct (request_mocks_are_spread bench_host bench_parse bench_globals
              bench_session "/graphql"
              {| method := Some "POST"; body := "Ping" |}
              {| operationName := Some "Ping"; query := "query { pong }";
                 variables := plain [] |})
    as [(combined & Hfetch & Hget) _].
  - exists "", "". reflexivity.
  - reflexivity.
  - reflexivity.
  - reflexivity.
  - exists combined. split; [exact Hfetch|].
    split; rewrite Hget; reflexivity.
Defined.

(** * Further properties *)

(** ** More on tables *)

Lemma get_own_None k o : get_own k o = None ↔ k ∉ o.*1.
Proof.
  induction o as [|[k0 v0] o IH]; csimpl.
  - split; [intros _; apply not_elem_of_nil | done].
  - rewrite not_elem_of_cons. destruct (decide (k = k0)) as [->|Hne].
    + split; [discriminate | tauto].
    + rewrite IH. tauto.
Qed.

Lemma obj_ext (a b : obj) :
  NoDup a.*1 → a.*1 = b.*1 → (∀ k, get_own k a = get_own k b) → a = b.
Proof.
  revert b. induction a as [|[k v] a IH]; intros [|[k' v'] b]; csimpl;
    intros Hnd Hfst Hget; try done.
  injection Hfst as -> Hfst.
  apply NoDup_cons in Hnd as [Hk Hnd].
  pose proof (Hget k') as Hv. rewrite !decide_True in Hv by done.
  injection Hv as ->. f_equal. apply IH; [done..|].
  intros j. specialize (Hget j). destruct (decide (j = k')) as [->|Hne]; [|done].
  transitivity (@None value); [|symmetry]; apply get_own_None; congruence.
Qed.

Lemma filter_ext_in {A} (P Q : A → Prop) `{∀ x, Decision (P x), ∀ x, Decision (Q x)}
    (l : list A) :
  (∀ x, x ∈ l → P x ↔ Q x) → filter P l = filter Q l.
Proof.
  induction l as [|x l IH]; intros Hiff; [done|].
  rewrite !filter_cons.
  rewrite IH by (intros y Hy; apply Hiff; by right).
  assert (Hx : P x ↔ Q x) by (apply Hiff; left).
  destruct (decide (P x)), (decide (Q x)); tauto.
Qed.

Lemma fst_store_all_filter (f : string → value) ks acc :
  NoDup ks →
  (fold_left (λ acc k, prop_set k (f k) acc) ks acc).*1
  = acc.*1 ++ filter (λ k, k ∉ acc.*1) ks.
Proof.
  revert acc. induction ks as [|k0 ks IH]; intros acc Hnd; simpl.
  - by rewrite app_nil_r.
  - apply NoDup_cons in Hnd as [Hk0 Hnd].
    rewrite IH, fst_prop_set by done.
    destruct (decide (k0 ∈ acc.*1)) as [Hin|Hni].
    + by rewrite filter_cons_False by tauto.
    + rewrite filter_cons_True by done. rewrite <- app_assoc. simpl.
      do 2 f_equal. apply filter_ext_in. intros k Hk.
      rewrite elem_of_app, list_elem_of_singleton.
      split; [tauto|]. intros Hni' [?| ->]; tauto.
Qed.

Lemma NoDup_fst_prop_set k v o : NoDup o.*1 → NoDup (prop_set k v o).*1.
Proof.
  intros Hnd. rewrite fst_prop_set. case_decide; [done|].
  apply NoDup_app. split; [done|]. split; [|apply NoDup_singleton].
  intros x Hx ->%list_elem_of_singleton. done.
Qed.

Lemma NoDup_fst_store_all (f : string → value) ks acc :
  NoDup acc.*1 → NoDup (fold_left (λ acc k, prop_set k (f k) acc) ks acc).*1.
Proof.
  revert acc. induction ks as [|k0 ks IH]; intros acc Hnd; simpl; [done|].
  by apply IH, NoDup_fst_prop_set.
Qed.

Lemma distinct_keys_copy_props target source :
  distinct_keys target → distinct_keys (copy_props target source).
Proof. apply NoDup_fst_store_all. Qed.

Lemma distinct_keys_spread2 a b : distinct_keys (spread2 a b).
Proof. apply distinct_keys_copy_props, distinct_keys_copy_props, NoDup_nil_2. Qed.

Lemma distinct_keys_objectMap o mapFn : distinct_keys (objectMap o mapFn).
Proof. apply NoDup_fst_store_all, NoDup_nil_2. Qed.

Lemma fst_copy_props target source :
  (copy_props target source).*1
  = target.*1 ++ filter (λ k, k ∉ target.*1) (Object_keys source).
Proof. apply fst_store_all_filter, NoDup_Object_keys. Qed.

Lemma fst_spread2 a b :
  (spread2 a b).*1
  = Object_keys a ++ filter (λ k, k ∉ Object_keys a) (Object_keys b).
Proof.
  unfold spread2. rewrite !fst_copy_props. csimpl.
  rewrite filter_all by (intros; apply not_elem_of_nil). done.
Qed.

Lemma Object_keys_spread2 a b :
  Object_keys (spread2 a b)
  = Object_keys a ++ filter (λ k, k ∉ Object_keys a) (Object_keys b).
Proof.
  rewrite Object_keys_fst by apply distinct_keys_spread2. apply fst_spread2.
Qed.

(** Copying a table with distinct keys gives the table back. *)
Lemma spread2_nil_l a : distinct_keys a → spread2 [] a = a.
Proof.
  intros Hnd. apply obj_ext; [apply distinct_keys_spread2| |].
  - rewrite fst_spread2. csimpl.
    rewrite filter_all by (intros; apply not_elem_of_nil).
    by apply Object_keys_fst.
  - intros k. rewrite get_own_spread2. by destruct (get_own k a).
Qed.

Lemma spread2_nil_r a : distinct_keys a → spread2 a [] = a.
Proof.
  intros Hnd. apply obj_ext; [apply distinct_keys_spread2| |].
  - rewrite fst_spread2. csimpl. rewrite app_nil_r. by apply Object_keys_fst.
  - intros k. by rewrite get_own_spread2.
Qed.

Lemma objectMap_same o mapFn :
  distinct_keys o →
  (∀ k v, get_own k o = Some v → mapFn v k = v) →
  objectMap o mapFn = o.
Proof.
  intros Hnd Hsame. apply obj_ext; [apply distinct_keys_objectMap| |].
  - rewrite fst_objectMap. by apply Object_keys_fst.
  - intros k. rewrite get_own_objectMap.
    destruct (get_own k o) as [v|] eqn:E; [|done]. cbn. by rewrite (Hsame k v).
Qed.

(** ** More on the override merger *)

(** X2: when both tables hold an object under [k], the merged table
    holds a plain object there, and each of its fields is the field of
    the override when the override has it, else the field of the
    current object.  The field is taken as it is: one level only. *)
Theorem mergeMocks_shallow_union k currentMocks mocks p1 f1 p2 f2 :
  get_own k currentMocks = Some (VObj p1 f1) →
  get_own k mocks = Some (VObj p2 f2) →
  ∃ union,
    get_own k (mergeMocks currentMocks mocks) = Some (plain union)
    ∧ ∀ field, get_own field union
               = match get_own field f2 with
                 | Some v => Some v
                 | None => get_own field f1
                 end.
Proof.
  intros H1 H2. exists (spread2 f1 f2). split.
  - by apply (mergeMocks_objects _ _ _ p1 _ p2).
  - intros field. apply get_own_spread2.
Qed.

Lemma mergeMocks_shallow_union_witness :
  ∃ union,
    get_own "User" (mergeMocks (default [] (commonMocks bench_globals))
                               (currentMocks bench_session))
    = Some (plain union)
    ∧ get_own "name" union = Some (VStr "B")
    ∧ get_own "age" union = Some (VNum 3).
Proof.
  destruct (mergeMocks_shallow_union "User"
              (default [] (commonMocks bench_globals))
              (currentMocks bench_session)
              [Object_fn] [("name", VStr "A"); ("age", VNum 3)]
              [Object_fn] [("name", VStr "B")])
    as (union & Hget & Hfields); [reflexivity | reflexivity |].
  exists union. split; [exact Hget|]. split; rewrite Hfields; reflexivity.
Defined.

(** X3: the entry of the override is what the merged table holds,
    unchanged, when it is an array or not of type [object], when the
    current table has no such key, or when what the current table holds
    there is an array or not of type [object]. *)
Theorem mergeMocks_replaced_exactly k currentMocks mocks v :
  get_own k mocks = Some v →
  typeof v ≠ "object" ∨ Array_isArray v = true
  ∨ get_own k currentMocks = None
  ∨ (∃ c, get_own k currentMocks = Some c
          ∧ (typeof c ≠ "object" ∨ Array_isArray c = true)) →
  get_own k (mergeMocks currentMocks mocks) = Some v.
Proof.
  intros Hv Hkind. apply mergeMocks_replaces; [done|].
  unfold isObject, prop_get.
  destruct Hkind as [Hk | [Hk | [Hk | (c & Hc & [Hk | Hk])]]].
  - left. by rewrite bool_decide_false.
  - left. by rewrite Hk, andb_false_r.
  - right. by rewrite Hk.
  - right. rewrite Hc. cbn. by rewrite bool_decide_false.
  - right. rewrite Hc. cbn. by rewrite Hk, andb_false_r.
Qed.

Lemma mergeMocks_replaced_exactly_witness :
  get_own "Tags"
    (mergeMocks [("Tags", VArr [VStr "a"; VStr "b"])] [("Tags", VArr [VStr "c"])])
  = Some (VArr [VStr "c"]).
Proof.
  apply mergeMocks_replaced_exactly; [reflexivity|].
  right; left. reflexivity.
Defined.

(** X4: merging nothing into a table, or a table into nothing, gives
    the table back (a table with distinct keys, as every object has). *)
Theorem mergeMocks_empty table :
  distinct_keys table →
  mergeMocks table [] = table ∧ mergeMocks [] table = table.
Proof.
  intros Hnd. unfold mergeMocks. split.
  - by apply spread2_nil_r.
  - rewrite objectMap_same by done. by apply spread2_nil_l.
Qed.

Lemma mergeMocks_empty_witness :
  mergeMocks (currentOps bench_session) [] = currentOps bench_session
  ∧ mergeMocks [] (currentOps bench_session) = currentOps bench_session.
Proof.
  apply mergeMocks_empty. apply (bool_decide_eq_true_1 _). reflexivity.
Defined.

(** X5: two overrides applied in turn to an object entry accumulate:
    a field comes from the second override when it has it, else from
    the first, else from the original object. *)
Theorem mergeMocks_twice k currentMocks first second p0 f0 p1 f1 p2 f2 :
  get_own k currentMocks = Some (VObj p0 f0) →
  get_own k first = Some (VObj p1 f1) →
  get_own k second = Some (VObj p2 f2) →
  ∃ union,
    get_own k (mergeMocks (mergeMocks currentMocks first) second)
    = Some (plain union)
    ∧ ∀ field, get_own field union
               = match get_own field f2 with
                 | Some v => Some v
                 | None =>
                     match get_own field f1 with
                     | Some v => Some v
                     | None => get_own field f0
                     end
                 end.
Proof.
  intros H0 H1 H2. exists (spread2 (spread2 f0 f1) f2). split.
  - apply (mergeMocks_objects _ _ _ [Object_fn] _ p2); [|done].
    by apply (mergeMocks_objects _ _ _ p0 _ p1).
  - intros field. by rewrite !get_own_spread2.
Qed.

Lemma mergeMocks_twice_witness :
  ∃ union,
    get_own "User"
      (mergeMocks (mergeMocks [("User", plain [("id", VNum 1)])]
                              [("User", plain [("name", VStr "A")])])
                  [("User", plain [("name", VStr "B")])])
    = Some (plain union)
    ∧ get_own "name" union = Some (VStr "B")
    ∧ get_own "id" union = Some (VNum 1).
Proof.
  destruct (mergeMocks_twice "User"
              [("User", plain [("id", VNum 1)])]
              [("User", plain [("name", VStr "A")])]
              [("User", plain [("name", VStr "B")])]
              [Object_fn] [("id", VNum 1)]
              [Object_fn] [("name", VStr "A")]
              [Object_fn] [("name", VStr "B")])
    as (union & Hget & Hfields); [reflexivity..|].
  exists union. split; [exact Hget|]. split; rewrite Hfields; reflexivity.
Defined.

(** ** More on the mock-table resolver *)

Lemma resolved_entry_is_function M k v :
  get_own k (resolveMocks M) = Some v → typeof v = "function".
Proof.
  unfold resolveMocks. rewrite get_own_objectMap.
  destruct (get_own k M) as [m|]; [|discriminate].
  intros [= <-]. unfold asFunction.
  destruct (instanceof_Function m) eqn:E; [by apply typeof_function|done].
Qed.

Lemma resolved_entry_is_instance M k v :
  get_own k (resolveMocks M) = Some v → instanceof_Function v = true.
Proof.
  unfold resolveMocks. rewrite get_own_objectMap.
  destruct (get_own k M) as [m|]; [|discriminate].
  intros [= <-]. unfold asFunction.
  by destruct (instanceof_Function m) eqn:E.
Qed.

(** X6: every entry of a resolved table is a function. *)
Theorem resolveMocks_all_functions M k v :
  get_own k (resolveMocks M) = Some v → typeof v = "function".
Proof. apply resolved_entry_is_function. Qed.

Lemma resolveMocks_all_functions_witness :
  typeof (VConstFn (VStr "CAT")) = "function".
Proof.
  apply (resolveMocks_all_functions
           (default [] (commonMocks bench_globals)) "EnumField").
  reflexivity.
Defined.

(** X7: resolving a resolved table changes nothing. *)
Theorem resolveMocks_idempotent M :
  resolveMocks (resolveMocks M) = resolveMocks M.
Proof.
  unfold resolveMocks at 1. apply objectMap_same.
  - apply distinct_keys_objectMap.
  - intros k v Hv%resolved_entry_is_instance.
    unfold asFunction. by rewrite Hv.
Qed.

(** ** More on the root value and the session *)





(** ** More on the error check *)

(** X10: the error check throws exactly when the root value is [null]
    or [undefined], or is no instance of [GraphQLError] and has [null] or
    [undefined] as its [constructor]. *)
Theorem isGraphQLErrorLike_throws_iff v :
  isGraphQLErrorLike v = None
  ↔ v = VNull ∨ v = VUndefined
    ∨ (instanceof_GraphQLError v = false
       ∧ (constructor_of v = Some VNull ∨ constructor_of v = Some VUndefined)).
Proof.
  split.
  - unfold isGraphQLErrorLike.
    destruct (instanceof_GraphQLError v) eqn:Hi; [discriminate|].
    destruct (constructor_of v) as [c|] eqn:Hc; cbn.
    + destruct (is_fn c GraphQLError); [discriminate|].
      destruct c; cbn; try discriminate; eauto.
    + destruct v; try discriminate; eauto.
      cbn in Hc. by destruct (get_own "constructor" props).
  - intros [-> | [-> | (Hi & [Hc | Hc])]]; try done;
      unfold isGraphQLErrorLike; by rewrite Hi, Hc.
Qed.

(** X11: a root value that is neither [null], [undefined] nor an object
    is not error-like, and the check does not throw on it. *)
Theorem only_objects_are_error_like v :
  v ≠ VNull → v ≠ VUndefined → (∀ protos props, v ≠ VObj protos props) →
  isGraphQLErrorLike v = Some false.
Proof.
  intros Hnull Hundef Hobj. destruct v; try done.
  by destruct (Hobj protos props).
Qed.

Lemma only_objects_are_error_like_witness :
  isGraphQLErrorLike (VStr "boom") = Some false.
Proof. apply only_objects_are_error_like; discriminate. Defined.

(** X12: an object built by any constructor named [GraphQLError], not
    only by the imported class, is error-like (it has no own property
    [constructor]). *)
Theorem foreign_GraphQLError_is_error_like c protos props :
  fn_name c = "GraphQLError" →
  get_own "constructor" props = None →
  isGraphQLErrorLike (VObj (c :: protos) props) = Some true.
Proof.
  intros Hname Hown. unfold isGraphQLErrorLike. cbn.
  destruct (bool_decide (GraphQLError ∈ c :: protos)); [done|].
  rewrite Hown. cbn. destruct (bool_decide (c = GraphQLError)); [done|].
  cbn. by rewrite Hname.
Qed.

Lemma foreign_GraphQLError_is_error_like_witness :
  isGraphQLErrorLike
    (VObj [FnRef "GraphQLError" 77; Error_fn; Object_fn] [("path", VNull)])
  = Some true.
Proof. apply foreign_GraphQLError_is_error_like; reflexivity. Defined.

(** ** More on the fetch wrapper *)

(** X13: when the body of a routed request cannot be decoded, the
    wrapper throws what the decoding threw. *)
Theorem fetch_parse_failure call_host JSON_parse g s url i e :
  contains url (endpoint s) →
  method i = Some "POST" →
  JSON_parse (body i) = inr e →
  fetch call_host JSON_parse g s (Url url) (Some i) = Thrown e.
Proof.
  intros Hurl Hpost Hparse. by rewrite fetch_routed, Hparse.
Qed.

Lemma fetch_parse_failure_witness :
  fetch bench_host bench_parse bench_globals bench_session
        (Url "/graphql") (bench_post "")
  = Thrown (VObj [SyntaxError_fn; Error_fn; Object_fn] []).
Proof.
  apply (fetch_parse_failure bench_host bench_parse bench_globals bench_session
           "/graphql" {| method := Some "POST"; body := "" |}).
  - exists "", "". reflexivity.
  - reflexivity.
  - reflexivity.
Defined.

Lemma fetch_cases call_host JSON_parse g s input init :
  fetch call_host JSON_parse g s input init = originalFetch input init
  ∨ (∃ e, fetch call_host JSON_parse g s input init = Thrown e)
  ∨ (∃ rootValue,
       fetch call_host JSON_parse g s input init
       = Promise Promise_resolve
           [wait (currentDelay s);
            respond_json (plain [("data", plain []);
                                 ("errors", VArr [rootValue])])])
  ∨ (∃ payload rootValue,
       fetch call_host JSON_parse g s input init
       = Promise
           (graphql
              {| arg_schema :=
                   addMocksToSchema (executableSchema s)
                     (resolveMocks (spread2 (default [] (commonMocks g))
                                            (currentMocks s)))
                     (currentResolvers s);
                 arg_source := query payload;
                 arg_variableValues := variables payload;
                 arg_operationName := operationName payload;
                 arg_rootValue := rootValue |})
           [wait (currentDelay s); respond_json_data]).
Proof.
  unfold fetch. destruct input as [url|?]; [|by left].
  destruct init as [i|]; [|by left].
  destruct (_ && _); [|by left].
  destruct (JSON_parse (body i)) as [payload|e]; [|right; left; eauto].
  cbv zeta. destruct (isGraphQLErrorLike _) as [[]|].
  - right; right; left. eauto.
  - right; right; right. eauto.
  - right; left. eauto.
Qed.

(** X14: a promise the wrapper returns always is a head followed by
    a wait of the current delay and then one callback that builds the
    response. *)
Theorem fetch_always_waits call_host JSON_parse g s input init head thens :
  fetch call_host JSON_parse g s input init = Promise head thens →
  ∃ respond,
    thens = [wait (currentDelay s); respond]
    ∧ (respond = respond_json_data ∨ ∃ body, respond = respond_json body).
Proof.
  intros Hfetch.
  destruct (fetch_cases call_host JSON_parse g s input init)
    as [H | [[e H] | [[r H] | (p & r & H)]]];
    rewrite H in Hfetch; try discriminate; injection Hfetch as <- <-; eauto.
Qed.

Lemma fetch_always_waits_witness :
  ∃ respond,
    [wait 25; respond_json_data] = [wait (currentDelay bench_session); respond]
    ∧ (respond = respond_json_data ∨ ∃ body, respond = respond_json body).
Proof.
  eapply (fetch_always_waits bench_host bench_parse bench_globals bench_session
            (Url "/graphql") (bench_post "Ping")).
  reflexivity.
Defined.

(** X17: when the wrapper executes a request, the mocks it hands over
    are the current mocks over the base mocks, each turned into a
    function, and the resolvers are the current resolvers. *)
Theorem request_mocks_all_functions call_host JSON_parse g s input init args thens :
  fetch call_host JSON_parse g s input init = Promise (graphql args) thens →
  ∃ mocks,
    arg_schema args
    = addMocksToSchema (executableSchema s) mocks (currentResolvers s)
    ∧ to_map mocks
      = asFunction <$> (to_map (currentMocks s)
                        ∪ to_map (default [] (commonMocks g)))
    ∧ ∀ k v, get_own k mocks = Some v → typeof v = "function".
Proof.
  intros Hfetch.
  destruct (fetch_cases call_host JSON_parse g s input init)
    as [H | [[e H] | [[r H] | (p & r & H)]]];
    rewrite H in Hfetch; try discriminate. injection Hfetch as <- <-.
  eexists. split; [reflexivity|]. split.
  - by rewrite to_map_resolveMocks, to_map_spread2.
  - intros k v. apply resolved_entry_is_function.
Qed.

Lemma request_mocks_all_functions_witness :
  ∃ mocks,
    addMocksToSchema (executableSchema bench_session)
      (resolveMocks (spread2 (default [] (commonMocks bench_globals))
                             (currentMocks bench_session)))
      (currentResolvers bench_session)
    = addMocksToSchema (executableSchema bench_session) mocks
                       (currentResolvers bench_session)
    ∧ to_map mocks
      = asFunction <$> (to_map (currentMocks bench_session)
                        ∪ to_map (default [] (commonMocks bench_globals)))
    ∧ ∀ k v, get_own k mocks = Some v → typeof v = "function".
Proof.
  eapply (request_mocks_all_functions bench_host bench_parse bench_globals
            bench_session (Url "/graphql") (bench_post "Ping")
            {| arg_schema := _; arg_source := _; arg_variableValues := _;
               arg_operationName := _; arg_rootValue := _ |}).
  reflexivity.
Defined.

(** X18: when the handler throws a value that does not pass the error
    check, such as a plain [Error], and the wrapper answers with a
    promise, the promise is not the errors response: it is the
    execution of the request with the thrown value as its root value,
    followed by the wait and the response. *)
Theorem thrown_non_error_is_executed
    call_host JSON_parse g s url i payload name h E head thens :
  contains url (endpoint s) →
  method i = Some "POST" →
  JSON_parse (body i) = inl payload →
  operationName payload = Some name →
  name ≠ "" →
  get_own name (currentOps s) = Some h →
  typeof h = "function" →
  call call_host h (variables payload) = Throw E →
  isGraphQLErrorLike E = Some false →
  fetch call_host JSON_parse g s (Url url) (Some i) = Promise head thens →
  head
  = graphql
      {| arg_schema :=
           addMocksToSchema (executableSchema s)
             (resolveMocks (spread2 (default [] (commonMocks g))
                                    (currentMocks s)))
             (currentResolvers s);
         arg_source := query payload;
         arg_variableValues := variables payload;
         arg_operationName := Some name;
         arg_rootValue := E |}
  ∧ thens = [wait (currentDelay s); respond_json_data].
Proof.
  intros Hurl Hpost Hparse Hop Hname Hh Hfun Hthrow Hlike.
  rewrite fetch_routed, Hparse by done. cbv zeta. rewrite Hop.
  rewrite (getRootValue_handler _ _ _ _ h) by done.
  rewrite Hthrow, Hlike. by intros [= <- <-].
Qed.

Lemma thrown_non_error_is_executed_witness :
  isGraphQLErrorLike a_plain_error = Some false
  ∧ graphql
    {| arg_schema := addMocksToSchema (makeExecutableSchema [bench_sdl]) [] [];
       arg_source := "query { pong }";
       arg_variableValues := plain [];
       arg_operationName := Some "Boom";
       arg_rootValue := a_plain_error |}
  = graphql
      {| arg_schema :=
           addMocksToSchema (executableSchema bench_failing_session)
             (resolveMocks (spread2 (default [] (commonMocks initial_globals))
                                    (currentMocks bench_failing_session)))
             (currentResolvers bench_failing_session);
         arg_source := "query { pong }";
         arg_variableValues := plain [];
         arg_operationName := Some "Boom";
         arg_rootValue := a_plain_error |}
  ∧ [wait 10; respond_json_data]
    = [wait (currentDelay bench_failing_session); respond_json_data].
Proof.
  split; [reflexivity|].
  apply (thrown_non_error_is_executed bench_host2 bench_parse initial_globals
           bench_failing_session "/graphql"
           {| method := Some "POST"; body := "Boom" |}
           {| operationName := Some "Boom"; query := "query { pong }";
              variables := plain [] |}
           "Boom" (VFun (FnRef "Boom" 200)) a_plain_error).
  - exists "", "". reflexivity.
  - reflexivity.
  - reflexivity.
  - reflexivity.
  - discriminate.
  - reflexivity.
  - reflexivity.
  - reflexivity.
  - reflexivity.
  - reflexivity.
Defined.

(** X15: after [setOperations], a mocked response waits the delay of
    those options, or zero when they have none, whatever the delay
    was before. *)
Theorem fetch_waits_latest_delay
    call_host JSON_parse g options s input init head thens :
  fetch call_host JSON_parse g (setOperations options s) input init
  = Promise head thens →
  ∃ respond, thens = [wait (default 0 (opt_delay options)); respond].
Proof.
  intros Hfetch.
  destruct (fetch_cases call_host JSON_parse g (setOperations options s) input init)
    as [H | [[e H] | [[r H] | (p & r & H)]]];
    rewrite H in Hfetch; try discriminate; injection Hfetch as <- <-;
    cbn [currentDelay setOperations]; rewrite delay_or_zero_default; eauto.
Qed.

Lemma fetch_waits_latest_delay_witness :
  ∃ respond, [wait 0; respond_json_data] = [wait 0; respond].
Proof.
  apply (fetch_waits_latest_delay bench_host bench_parse bench_globals bench_ops
           bench_session (Url "/graphql") (bench_post "Ping")
           (graphql
              {| arg_schema :=
                   addMocksToSchema (executableSchema bench_session)
                     (resolveMocks (spread2 (default [] (commonMocks bench_globals))
                                            (currentMocks bench_session)))
                     [];
                 arg_source := "query { pong }";
                 arg_variableValues := plain [];
                 arg_operationName := Some "Ping";
                 arg_rootValue := plain [("pong", VBool true)] |})).
  reflexivity.
Defined.

(** X16: [setOperations] does not change which requests pass through
    to the original fetch. *)
Theorem setOperations_keeps_routing call_host JSON_parse g options s input init :
  fetch call_host JSON_parse g (setOperations options s) input init
  = originalFetch input init
  ↔ fetch call_host JSON_parse g s input init = originalFetch input init.
Proof.
  unfold fetch. destruct input as [url|?]; [|done].
  destruct init as [i|]; [|done].
  change (endpoint (setOperations options s)) with (endpoint s).
  destruct (_ && _); [|done].
  destruct (JSON_parse (body i)) as [payload|e]; [|done].
  cbv zeta. split; intros H.
  - by destruct (isGraphQLErrorLike _) as [[]|].
  - by destruct (isGraphQLErrorLike (getRootValue _ (currentOps s) _ _)) as [[]|].
Qed.

(** ** [getAlias] *)

Lemma append_inj_r p s t : p +:+ s = p +:+ t → s = t.
Proof.
  induction p as [|c p IH]; [done|].
  rewrite !append_cons. intros [= H]. by apply IH.
Qed.

Lemma getAlias_alias_key name endpoint :
  getAlias name endpoint
  = match alias_key name endpoint with
    | Some s => "mockGraphqlOps:" +:+ s
    | None => "mockGraphqlOps"
    end.
Proof.
  unfold getAlias, alias_key, name_or_endpoint, non_empty.
  destruct name as [[|c n]|]; cbn; try done;
    destruct endpoint as [[|c' e]|]; done.
Qed.

Lemma getAlias_alias_injective name1 endpoint1 name2 endpoint2 :
  getAlias name1 endpoint1 = getAlias name2 endpoint2 →
  alias_key name1 endpoint1 = alias_key name2 endpoint2.
Proof.
  rewrite !getAlias_alias_key.
  destruct (alias_key name1 endpoint1) as [s|],
           (alias_key name2 endpoint2) as [t|]; intros H; try done.
  f_equal. by apply (append_inj_r "mockGraphqlOps:").
Qed.

(** X19: two handles get the same alias exactly when they have the same
    key: the name when it is not empty, else the endpoint when it is
    not empty. *)
Theorem getAlias_eq_iff name1 endpoint1 name2 endpoint2 :
  getAlias name1 endpoint1 = getAlias name2 endpoint2
  ↔ alias_key name1 endpoint1 = alias_key name2 endpoint2.
Proof.
  split; [apply getAlias_alias_injective|].
  intros H. by rewrite !getAlias_alias_key, H.
Qed.

(** ** The command [mockGraphql] *)

Lemma merged_option g options k :
  prop_get (spread2 (default [] (commonOptions g)) (default [] options)) k
  = effective_option g options k.
Proof.
  unfold prop_get at 1, effective_option. rewrite get_own_spread2.
  by destruct (get_own k (default [] options)).
Qed.

Lemma with_default_undefined v : with_default v VUndefined = v.
Proof. by destruct v. Qed.

(** The body of the command in terms of the options it goes by. *)
Lemma mockGraphql_session_effective print g options :
  mockGraphql_session print g options
  = if negb (truthy (effective_option g options "schema")) then
      InstallError
        "Schema must be provided to the mockGraphql or setBaseOperationOptions"
    else
      match schemaAsSDL print (effective_option g options "schema") with
      | Throw e => InstallThrown e
      | Normal typeDefs =>
          match
            typeDefs' ← as_typeDefs typeDefs;
            endpoint' ← as_string (with_default (effective_option g options "endpoint")
                                                (VStr "/graphql"));
            delay' ← as_number (with_default (effective_option g options "delay")
                                             (VNum 0));
            operations' ← as_table (with_default (effective_option g options "operations")
                                                 (plain []));
            mocks' ← as_table (with_default (effective_option g options "mocks")
                                            (plain []));
            resolvers' ← as_table (with_default (effective_option g options "resolvers")
                                                (plain []));
            alias_name ← as_optional_string (effective_option g options "name");
            alias_endpoint ← as_optional_string (effective_option g options "endpoint");
            Some (getAlias alias_name alias_endpoint,
                  Session endpoint' (makeExecutableSchema typeDefs') delay'
                          operations' mocks' resolvers')
          with
          | Some (alias, s) => Installed alias s
          | None => OutsideInterface
          end
      end.
Proof.
  unfold mockGraphql_session. cbv zeta.
  by rewrite !merged_option, with_default_undefined.
Qed.

(** X20: when the schema the command goes by is falsy, [mockGraphql]
    throws the setup error and binds no alias. *)
Theorem mockGraphql_without_schema print g options cy :
  truthy (effective_option g options "schema") = false →
  mockGraphql print g options cy
  = (InstallError
       "Schema must be provided to the mockGraphql or setBaseOperationOptions",
     cy).
Proof.
  intros Hschema. unfold mockGraphql.
  by rewrite mockGraphql_session_effective, Hschema.
Qed.

Lemma mockGraphql_without_schema_witness :
  mockGraphql bench_print (Globals None (Some bench_base_options))
              (Some [("mocks", plain [])]) ∅
  = (InstallError
       "Schema must be provided to the mockGraphql or setBaseOperationOptions",
     ∅).
Proof. apply mockGraphql_without_schema. reflexivity. Defined.

(** X21: with a schema text and nothing else, an installation that
    succeeds has the endpoint [/graphql], no delay and empty tables,
    and its alias is [mockGraphqlOps], without the endpoint. *)
Theorem mockGraphql_defaults print g options sdl alias s :
  effective_option g options "schema" = VStr sdl →
  (∀ k, k ∈ ["endpoint"; "delay"; "operations"; "mocks"; "resolvers"; "name"] →
        effective_option g options k = VUndefined) →
  mockGraphql_session print g options = Installed alias s →
  alias = "mockGraphqlOps"
  ∧ s = Session "/graphql" (makeExecutableSchema [sdl]) 0 [] [] [].
Proof.
  intros Hschema Hrest.
  rewrite mockGraphql_session_effective, Hschema.
  rewrite !Hrest
    by (apply (bool_decide_eq_true_1 _); reflexivity).
  cbn. destruct (String.eqb_spec sdl ""); [discriminate|].
  cbn. by intros [= <- <-].
Qed.

Lemma mockGraphql_defaults_witness :
  mockGraphql_session bench_print initial_globals (Some [("schema", VStr bench_sdl)])
  = Installed "mockGraphqlOps"
      (Session "/graphql" (makeExecutableSchema [bench_sdl]) 0 [] [] [])
  ∧ "mockGraphqlOps" = "mockGraphqlOps"
  ∧ Session "/graphql" (makeExecutableSchema [bench_sdl]) 0 [] [] []
    = Session "/graphql" (makeExecutableSchema [bench_sdl]) 0 [] [] [].
Proof.
  split; [reflexivity|].
  apply (mockGraphql_defaults bench_print initial_globals
           (Some [("schema", VStr bench_sdl)]) bench_sdl);
    [reflexivity | | reflexivity].
  intros k Hk. repeat (apply elem_of_cons in Hk as [-> | Hk]; [reflexivity|]).
  by apply elem_of_nil in Hk.
Defined.

(** What a successful installation holds, read off the options it
    goes by. *)
Lemma mockGraphql_session_installed print g options alias s :
  mockGraphql_session print g options = Installed alias s →
  truthy (effective_option g options "schema") = true
  ∧ (∃ typeDefs texts,
       schemaAsSDL print (effective_option g options "schema") = Normal typeDefs
       ∧ as_typeDefs typeDefs = Some texts
       ∧ executableSchema s = makeExecutableSchema texts)
  ∧ as_string (with_default (effective_option g options "endpoint")
                            (VStr "/graphql")) = Some (endpoint s)
  ∧ as_number (with_default (effective_option g options "delay") (VNum 0))
    = Some (currentDelay s)
  ∧ as_table (with_default (effective_option g options "operations") (plain []))
    = Some (currentOps s)
  ∧ as_table (with_default (effective_option g options "mocks") (plain []))
    = Some (currentMocks s)
  ∧ as_table (with_default (effective_option g options "resolvers") (plain []))
    = Some (currentResolvers s)
  ∧ ∃ name endpoint,
      as_optional_string (effective_option g options "name") = Some name
      ∧ as_optional_string (effective_option g options "endpoint") = Some endpoint
      ∧ alias = getAlias name endpoint.
Proof.
  rewrite mockGraphql_session_effective. intros Hinst.
  destruct (truthy _); [|discriminate]. cbn in Hinst.
  destruct (schemaAsSDL _ _) as [typeDefs|]; [|discriminate].
  destruct (as_typeDefs typeDefs) as [texts|] eqn:Htexts;
    cbn in Hinst; [|discriminate].
  destruct (as_string _) as [endpoint'|]; cbn in Hinst; [|discriminate].
  destruct (as_number _) as [delay'|]; cbn in Hinst; [|discriminate].
  destruct (as_table (with_default (effective_option g options "operations") _))
    as [operations'|]; cbn in Hinst; [|discriminate].
  destruct (as_table (with_default (effective_option g options "mocks") _))
    as [mocks'|]; cbn in Hinst; [|discriminate].
  destruct (as_table (with_default (effective_option g options "resolvers") _))
    as [resolvers'|]; cbn in Hinst; [|discriminate].
  destruct (as_optional_string (effective_option g options "name"))
    as [name|]; cbn in Hinst; [|discriminate].
  destruct (as_optional_string (effective_option g options "endpoint"))
    as [endpoint|]; cbn in Hinst; [|discriminate].
  injection Hinst as <- <-. cbn. eauto 20.
Qed.

(** X22: a table given in the options of the call is the table of
    the session: the table the base options have under the same name
    is not merged into it. *)
Theorem mockGraphql_tables_replace_base print g options alias s :
  mockGraphql_session print g options = Installed alias s →
  (∀ protos table,
     get_own "operations" (default [] options) = Some (VObj protos table) →
     currentOps s = table)
  ∧ (∀ protos table,
       get_own "mocks" (default [] options) = Some (VObj protos table) →
       currentMocks s = table)
  ∧ (∀ protos table,
       get_own "resolvers" (default [] options) = Some (VObj protos table) →
       currentResolvers s = table).
Proof.
  intros (_ & _ & _ & _ & Hops & Hmocks & Hres & _)%mockGraphql_session_installed.
  unfold effective_option in *.
  repeat split; intros protos table Hown; rewrite Hown in *; cbn in *; congruence.
Qed.

Lemma mockGraphql_tables_replace_base_witness :
  currentMocks bench_installed = [("User", plain [("name", VStr "B")])].
Proof.
  destruct (mockGraphql_tables_replace_base bench_print
              (Globals None (Some bench_base_options)) (Some bench_options)
              "mockGraphqlOps:api" bench_installed)
    as (_ & Hmocks & _); [reflexivity|].
  apply (Hmocks [Object_fn]). reflexivity.
Defined.

(** X23: for a schema that is a text or an array, the installation
    does not depend on [printSchema] and [buildClientSchema]. *)
Theorem mockGraphql_text_schema_needs_no_printer print1 print2 g options :
  typeof (effective_option g options "schema") = "string"
  ∨ Array_isArray (effective_option g options "schema") = true →
  mockGraphql_session print1 g options = mockGraphql_session print2 g options.
Proof.
  intros Hkind. rewrite !mockGraphql_session_effective.
  unfold schemaAsSDL.
  destruct Hkind as [H | H]; rewrite H; [done|by rewrite orb_true_r].
Qed.

Lemma mockGraphql_text_schema_needs_no_printer_witness :
  mockGraphql_session bench_print initial_globals (Some bench_options)
  = mockGraphql_session (λ _, Throw VNull) initial_globals (Some bench_options).
Proof.
  apply mockGraphql_text_schema_needs_no_printer. left. reflexivity.
Defined.

(** X24: when the schema is an introspection object on which
    [buildClientSchema] or [printSchema] throws, the command throws the
    same and binds no alias. *)
Theorem mockGraphql_introspection_failure print g options cy protos q e :
  effective_option g options "schema" = VObj protos q →
  print (VObj protos q) = Throw e →
  mockGraphql print g options cy = (InstallThrown e, cy).
Proof.
  intros Hschema Hthrow. unfold mockGraphql.
  rewrite mockGraphql_session_effective, Hschema. unfold schemaAsSDL. cbn.
  by rewrite Hthrow.
Qed.

Lemma mockGraphql_introspection_failure_witness :
  mockGraphql bench_print initial_globals (Some [("schema", plain [])]) ∅
  = (InstallThrown (VObj [Error_fn; Object_fn] []), ∅).
Proof.
  apply (mockGraphql_introspection_failure _ _ _ _ [Object_fn] []); reflexivity.
Defined.

(** ** The command [mockGraphqlOps] *)

(** X25: [mockGraphqlOps] leaves what is bound to any other alias as
    it was. *)
Theorem mockGraphqlOps_only_its_session options cy other :
  other ≠ getAlias (opt_name (default no_options options))
                   (opt_endpoint (default no_options options)) →
  (mockGraphqlOps options cy).2 !! other = cy !! other.
Proof.
  intros Hother. unfold mockGraphqlOps. cbv zeta.
  destruct (cy !! getAlias _ _); [|done].
  destruct options as [o|]; [|done]. cbn. by rewrite lookup_insert_ne.
Qed.

Lemma mockGraphqlOps_only_its_session_witness :
  (mockGraphqlOps (Some bench_ops)
     (<["mockGraphqlOps" := bench_session]> {["mockGraphqlOps:api" := bench_installed]})).2
    !! "mockGraphqlOps:api"
  = (<["mockGraphqlOps" := bench_session]> {["mockGraphqlOps:api" := bench_installed]}
       : gmap string session) !! "mockGraphqlOps:api".
Proof. apply mockGraphqlOps_only_its_session. discriminate. Defined.

(** X26: after [mockGraphql], a [mockGraphqlOps] whose options give the
    alias of the installation applies [setOperations] to its session. *)
Theorem mockGraphqlOps_after_mockGraphql print g options cy alias s cy' o :
  mockGraphql print g options cy = (Installed alias s, cy') →
  getAlias (opt_name o) (opt_endpoint o) = alias →
  mockGraphqlOps (Some o) cy' = (Applied, <[alias := setOperations o s]> cy).
Proof.
  unfold mockGraphql. intros Hinst Halias.
  destruct (mockGraphql_session print g options); try discriminate.
  injection Hinst as -> -> <-.
  unfold mockGraphqlOps. cbn. rewrite Halias, lookup_insert_eq.
  by rewrite insert_insert_eq.
Qed.

Lemma mockGraphqlOps_after_mockGraphql_witness :
  mockGraphqlOps (Some bench_ops) {["mockGraphqlOps" := bench_installed]}
  = (Applied, <["mockGraphqlOps" := setOperations bench_ops bench_installed]> ∅).
Proof.
  apply (mockGraphqlOps_after_mockGraphql bench_print initial_globals
           (Some bench_options)); reflexivity.
Defined.

(** X27: [mockGraphql] takes the alias from the merged options and
    [mockGraphqlOps] from its own: when the two do not have the same
    key, as when only the base options carry the name, the handle is not
    found. *)
Theorem mockGraphqlOps_misses_base_name print g options alias s cy' name endpoint o :
  mockGraphql print g options ∅ = (Installed alias s, cy') →
  as_optional_string (effective_option g options "name") = Some name →
  as_optional_string (effective_option g options "endpoint") = Some endpoint →
  alias_key (opt_name o) (opt_endpoint o) ≠ alias_key name endpoint →
  mockGraphqlOps (Some o) cy'
  = (AliasNotFound (getAlias (opt_name o) (opt_endpoint o)), cy').
Proof.
  unfold mockGraphql. intros Hinst Hname Hendpoint Hkey.
  destruct (mockGraphql_session print g options) eqn:Hsession; try discriminate.
  injection Hinst as -> -> <-.
  apply mockGraphql_session_installed in Hsession
    as (_ & _ & _ & _ & _ & _ & _ & n & e & Hn & He & ->).
  assert (n = name) as -> by congruence.
  assert (e = endpoint) as -> by congruence.
  unfold mockGraphqlOps. cbn.
  rewrite lookup_insert_ne, lookup_empty; [done|].
  intros Heq. apply Hkey. symmetry. by apply getAlias_alias_injective.
Qed.

Lemma mockGraphqlOps_misses_base_name_witness :
  mockGraphqlOps (Some bench_ops) {["mockGraphqlOps:api" := bench_installed]}
  = (AliasNotFound "mockGraphqlOps", {["mockGraphqlOps:api" := bench_installed]}).
Proof.
  apply (mockGraphqlOps_misses_base_name bench_print
           (Globals None (Some bench_base_options)) (Some bench_options)
           "mockGraphqlOps:api" bench_installed _ (Some "api") None);
    [reflexivity | reflexivity | reflexivity | discriminate].
Defined.

(** ** The two versions of the module *)

Lemma fold_left_ext_in {A B} (f g : A → B → A) (l : list B) (a : A) :
  (∀ acc x, x ∈ l → f acc x = g acc x) → fold_left f l a = fold_left g l a.
Proof.
  revert a. induction l as [|x l IH]; intros a Hfg; simpl; [done|].
  rewrite Hfg by left. apply IH. intros acc y Hy. apply Hfg. by right.
Qed.

(** [objectMap] sees of a table its keys and what it holds under them. *)
Lemma objectMap_ext a b mapFn :
  Object_keys a = Object_keys b →
  (∀ k, get_own k a = get_own k b) →
  objectMap a mapFn = objectMap b mapFn.
Proof.
  intros Hkeys Hget. unfold objectMap. rewrite Hkeys.
  apply fold_left_ext_in. intros acc k _. unfold prop_get. by rewrite Hget.
Qed.

Lemma resolveMocks_copy table : resolveMocks (spread2 [] table) = resolveMocks table.
Proof.
  apply objectMap_ext.
  - rewrite Object_keys_spread2. csimpl.
    apply filter_all. intros k _. apply not_elem_of_nil.
  - intros k. rewrite get_own_spread2. by destruct (get_own k table).
Qed.

(** X28: while no base mocks are registered, the fetch wrapper does on
    every request what the wrapper of the earlier version does. *)
Theorem fetch_without_base_mocks_is_legacy
    call_host JSON_parse base_options s input init :
  fetch call_host JSON_parse (Globals None base_options) s input init
  = Legacy.fetch call_host JSON_parse s input init.
Proof.
  unfold fetch, Legacy.fetch. cbn [commonMocks default from_option].
  by rewrite resolveMocks_copy.
Qed.






(** X30: [mockGraphql] without options, after the options were
    registered as base options, does what [mockGraphql] with these
    options does when no base options are registered. *)
Theorem base_options_alone print g base :
  commonOptions g = None →
  mockGraphql_session print (setBaseOperationOptions base g).2 None
  = mockGraphql_session print g (Some base).
Proof.
  intros Hnone. rewrite !mockGraphql_session_effective.
  assert (Heff : ∀ k, effective_option (setBaseOperationOptions base g).2 None k
                      = effective_option g (Some base) k).
  { intros k. unfold setBaseOperationOptions, effective_option, prop_get.
    rewrite Hnone. cbn. by destruct (get_own k base). }
  by rewrite !Heff.
Qed.

Lemma base_options_alone_witness :
  mockGraphql_session bench_print
    (setBaseOperationOptions bench_options initial_globals).2 None
  = mockGraphql_session bench_print initial_globals (Some bench_options).
Proof. apply base_options_alone. reflexivity. Defined.
